(** * TaskTrackr reminder subsystem: a shallow embedding

    The development follows the JavaScript sources of the notification
    service and of the task service:

    - [common/models/Task.js]: the task document and its save hook, the
      virtual [isOverdue], the method [setReminder] and the static
      [getOverdueTasks];
    - the class based [emailService] of the notification service;
    - [notification-service/services/reminderService.js]:
      [checkAndSendReminders], [generateUserSummary], [scheduleReminder],
      [cancelReminder] and [getReminderStats];
    - the function based reminder job that ships next to it:
      [sendEmail], [sendTaskReminder] and [checkReminders];
    - [common/utils/response.js]: [successResponse], [errorResponse] and
      [notFoundResponse];
    - [task-service/src/controllers/taskController.js]: [getTaskById],
      [updateTask], [deleteTask], [archiveTask], [bulkUpdateTasks] and
      [getTasksDueSoon].

    Effects are explicit.  A function of the services is a state
    transformer over a [World] (the two collections, the clock, the script
    of store outages and the log of mailer calls) that either returns or
    throws.  What lies outside the repository is a parameter: the outcome of
    the SMTP transport ([Mailer]), the outages of the store ([faults]), the
    time zone, and two points on which the behaviour of the database driver
    is left open ([NestedSet], [DateBinding]).

    The callbacks of one cycle are run one after the other.  Each of them
    reads its own scanned document and writes the stored document of the
    same [_id] only, so the order in which the event loop interleaves them
    does not show in the collection or in the set of mails. *)

From Stdlib Require Import ZArith List Bool String Floats Uint63.
From stdpp Require Import base option list gmap strings pretty sorting.
Import ListNotations.

Local Open Scope Z_scope.

(** ** Documents *)

Abbreviation Instant := Z (only parsing).      (* a JS Date: milliseconds since the epoch *)
Abbreviation TaskId := positive (only parsing). (* an ObjectId *)
Abbreviation UserId := positive (only parsing).

Inductive Status := pending | in_progress | completed | cancelled.
Inductive Priority := low | medium | high | urgent.

#[global] Instance Status_eq_dec : EqDecision Status.
Proof. solve_decision. Defined.
#[global] Instance Priority_eq_dec : EqDecision Priority.
Proof. solve_decision. Defined.

(** The [reminder] sub-document.  A field is [None] when the stored
    document has no such field (or holds [null]); a query on a value never
    matches a missing field. *)
Record Reminder := mkReminder {
  enabled : option bool;
  reminderDate : option Instant;
  notified : option bool
}.

Record Task := mkTask {
  userId : UserId;
  title : string;
  status : Status;
  priority : Priority;
  dueDate : option Instant;
  reminder : Reminder;
  isArchived : bool;
  lastModified : Instant;
  syncVersion : Z
}.

(** A Mongoose document in memory: the fields as they were read, under
    the [_id] they were read from.  The collection is keyed by [_id]. *)
Record Document := mkDocument {
  _id : TaskId;
  fields : Task
}.

(** [preferences?.notifications?.email]: [None] is [undefined], at
    whichever level the chain stops. *)
Record User := mkUser {
  name : string;
  email : string;
  preferences_notifications_email : option bool
}.

(** A document returned by [find(...).populate('userId', ...)]: the
    [userId] path holds the owner, or [null] when no such user exists. *)
Record Populated := mkPopulated {
  doc : Document;
  owner : option User
}.

(** ** Mail *)

Record Mail := mkMail {
  mail_to : string;
  mail_template : string;
  mail_task : TaskId
}.

(** One entry per call of the mailer's [sendEmail]. *)
Record Sent := mkSent {
  sent_mail : Mail;
  sent_ok : bool
}.

(** ** The world *)

Record World := mkWorld {
  tasks : gmap positive Task;
  users : gmap positive User;
  clock : Instant;
  faults : list bool;   (* [true]: the next store operation rejects *)
  outbox : list Sent
}.

Definition set_tasks (m : gmap positive Task) (w : World) : World :=
  mkWorld m (users w) (clock w) (faults w) (outbox w).
Definition set_faults (f : list bool) (w : World) : World :=
  mkWorld (tasks w) (users w) (clock w) f (outbox w).
Definition set_clock (now : Instant) (w : World) : World :=
  mkWorld (tasks w) (users w) now (faults w) (outbox w).
Definition push_outbox (s : Sent) (w : World) : World :=
  mkWorld (tasks w) (users w) (clock w) (faults w) (outbox w ++ [s]).

(** ** Completions and the effect monad *)

Inductive Error :=
| TypeError
| StoreUnavailable
| DocumentNotFound
| TransportError
| ErrorMsg (msg : string).

Definition error_message (e : Error) : string :=
  match e with
  | TypeError => "Cannot read properties of null"
  | StoreUnavailable => "store unavailable"
  | DocumentNotFound => "No document found for query"
  | TransportError => "transport failure"
  | ErrorMsg m => m
  end.

Inductive Completion (A : Type) :=
| Normal (a : A)
| Throw (e : Error).
Arguments Normal {A} a.
Arguments Throw {A} e.

Definition M (A : Type) : Type := World -> Completion A * World.

Definition ret {A} (a : A) : M A := fun w => (Normal a, w).
Definition throw {A} (e : Error) : M A := fun w => (Throw e, w).
Definition bind {A B} (m : M A) (k : A -> M B) : M B :=
  fun w => match m w with
           | (Normal a, w') => k a w'
           | (Throw e, w') => (Throw e, w')
           end.
(** [try { body } catch (error) { handler }]: what the body did to the
    world before it threw stays done. *)
Definition try_catch {A} (body : M A) (handler : Error -> M A) : M A :=
  fun w => match body w with
           | (Normal a, w') => (Normal a, w')
           | (Throw e, w') => handler e w'
           end.

Notation "x <- m ;; k" := (bind m (fun x => k))
  (at level 100, m at next level, right associativity).
Notation "m ;;; k" := (bind m (fun _ => k))
  (at level 100, right associativity).

(** [for (const x of xs) await f(x)], and, for handlers that never
    reject and touch only their own document, [Promise.allSettled(xs.map(f))]. *)
Fixpoint forEach {A} (xs : list A) (f : A -> M unit) : M unit :=
  match xs with
  | [] => ret tt
  | x :: xs' => f x ;;; forEach xs' f
  end.

Definition new_Date : M Instant := fun w => (Normal (clock w), w).

(** ** The store (Mongoose over MongoDB) *)

(** Every store operation first consumes one entry of the outage script. *)
Definition store_op {A} (op : M A) : M A :=
  fun w => match faults w with
           | true :: fs => (Throw StoreUnavailable, set_faults fs w)
           | false :: fs => op (set_faults fs w)
           | [] => op w
           end.

Definition all_tasks (w : World) : list Document :=
  map (fun kv => mkDocument (fst kv) (snd kv)) (map_to_list (tasks w)).

Definition matching (flt : Task -> bool) (w : World) : list Document :=
  List.filter (fun d => flt (fields d)) (all_tasks w).

Definition populate (w : World) (d : Document) : Populated :=
  mkPopulated d (users w !! userId (fields d)).

(** [Task.find(filter)] *)
Definition Task_find (flt : Task -> bool) : M (list Document) :=
  store_op (fun w => (Normal (matching flt w), w)).

(** [Task.find(filter).populate('userId', ...)] *)
Definition Task_find_populate (flt : Task -> bool) : M (list Populated) :=
  store_op (fun w => (Normal (map (populate w) (matching flt w)), w)).

(** [Task.countDocuments(filter)] *)
Definition Task_countDocuments (flt : Task -> bool) : M Z :=
  store_op (fun w => (Normal (Z.of_nat (length (matching flt w))), w)).

(** [Task.findById(id)] *)
Definition Task_findById (id : TaskId) : M (option Document) :=
  store_op (fun w => (Normal (mkDocument id <$> tasks w !! id), w)).

(** The paths of the reminder that the services assign before a save. *)
Inductive Path := P_enabled | P_reminderDate | P_notified.

Definition set_reminder (r : Reminder) (t : Task) : Task :=
  mkTask (userId t) (title t) (status t) (priority t)
         (dueDate t) r (isArchived t) (lastModified t) (syncVersion t).

Definition write_path (mem : Task) (p : Path) (stored : Task) : Task :=
  let r := reminder stored in
  set_reminder
    match p with
    | P_enabled => mkReminder (enabled (reminder mem)) (reminderDate r) (notified r)
    | P_reminderDate => mkReminder (enabled r) (reminderDate (reminder mem)) (notified r)
    | P_notified => mkReminder (enabled r) (reminderDate r) (notified (reminder mem))
    end stored.

(** The [pre('save')] hook of the schema: [lastModified = new Date()] and
    [syncVersion += 1] on the document in memory; the reminder paths do not
    modify [status], so [completedAt] is left alone. *)
Definition pre_save (now : Instant) (mem stored : Task) : Task :=
  mkTask (userId stored) (title stored) (status stored) (priority stored)
         (dueDate stored) (reminder stored) (isArchived stored) now (syncVersion mem + 1).

(** [doc.save()] of a document obtained from a query: one update by [_id]
    that writes the assigned paths of the document in memory, whatever the
    stored document holds by then; it rejects when no document has that
    [_id] any more. *)
Definition save (d : Document) (dirty : list Path) : M unit :=
  store_op (fun w =>
    match tasks w !! _id d with
    | Some stored =>
        let t := pre_save (clock w) (fields d)
                   (fold_right (write_path (fields d)) stored dirty) in
        (Normal tt, set_tasks (<[_id d := t]> (tasks w)) w)
    | None => (Throw DocumentNotFound, w)
    end).

(** Assignments to the document in memory. *)
Definition assign (f : Reminder -> Reminder) (d : Document) : Document :=
  mkDocument (_id d) (set_reminder (f (reminder (fields d))) (fields d)).
Definition assign_enabled (b : bool) : Document -> Document :=
  assign (fun r => mkReminder (Some b) (reminderDate r) (notified r)).
Definition assign_reminderDate (x : option Instant) : Document -> Document :=
  assign (fun r => mkReminder (enabled r) x (notified r)).
Definition assign_notified (b : bool) : Document -> Document :=
  assign (fun r => mkReminder (enabled r) (reminderDate r) (Some b)).

(** ** Numbers

    Counts are JS Numbers; the one place where the subsystem leaves the
    integers is the completion rate, computed in binary64. *)

Definition Number_of_count (n : Z) : float := PrimFloat.of_uint63 (Uint63.of_Z n).

(** [Math.round] on a finite double: the closest integer, a tie going
    towards +infinity, computed exactly from mantissa and exponent. *)
Definition Math_round (x : float) : Z :=
  match Prim2SF x with
  | S754_finite s m e =>
      let n := if s then Z.neg m else Z.pos m in
      if 0 <=? e then n * 2 ^ e else (2 * n + 2 ^ (- e)) / 2 ^ (- e + 1)
  | _ => 0
  end.

(** [totalTasks > 0 ? Math.round((completedTasks / totalTasks) * 100) : 0] *)
Definition completionRate (completedTasks totalTasks : Z) : Z :=
  if 0 <? totalTasks
  then Math_round (PrimFloat.mul
                     (PrimFloat.div (Number_of_count completedTasks)
                                    (Number_of_count totalTasks))
                     (Number_of_count 100))
  else 0.

(** The rate as the summary's contract words it, [round(100 * completed /
    total)] and [0] for an empty total: the exact quotient, rounded to the
    closest integer, a tie going up as [Math.round] does. *)
Definition spec_completionRate (completed total : Z) : Z :=
  if total =? 0 then 0 else (200 * completed + total) / (2 * total).

(** ** Query predicates *)

Definition status_in (l : list Status) (s : Status) : bool :=
  existsb (fun x => bool_decide (x = s)) l.

Definition holds (o : option bool) (b : bool) : bool :=
  match o with Some x => Bool.eqb x b | None => false end.

(** [{ $lte: bound }] and [{ $lt: bound }] / [{ $gte: bound }] on a date
    path: a missing or [null] date matches none of them. *)
Definition lte_date (o : option Instant) (bound : Instant) : bool :=
  match o with Some d => d <=? bound | None => false end.
Definition lt_date (o : option Instant) (bound : Instant) : bool :=
  match o with Some d => d <? bound | None => false end.
Definition gte_date (o : option Instant) (bound : Instant) : bool :=
  match o with Some d => bound <=? d | None => false end.

(** [x !== false] and the truthiness of [preferences?.notifications?.email]. *)
Definition is_not_false (o : option bool) : bool :=
  match o with Some false => false | _ => true end.
Definition truthy (o : option bool) : bool :=
  match o with Some true => true | _ => false end.

(** ** The mailer *)

Record Mailer := mkMailer {
  configured : bool;                (* [this.configured && this.transporter !== null] *)
  templates : list string;          (* names held by [this.templates] *)
  transport : Mail -> bool          (* does [transporter.sendMail] resolve for this mail *)
}.

Record SendResult := mkSendResult {
  send_success : bool;
  send_message : string;
  send_error : option string
}.

Definition transporter_sendMail (ml : Mailer) (m : Mail) : M unit :=
  fun w => if transport ml m then (Normal tt, w) else (Throw TransportError, w).

Definition log_sent (m : Mail) (ok : bool) : M unit :=
  fun w => (Normal tt, push_outbox (mkSent m ok) w).

(** The class based [emailService] of the notification service. *)
Module EmailService.
Section WithMailer.
Variable ml : Mailer.

Definition isConfigured : bool := configured ml.

(** [sendEmail(to, subject, templateName, data)]: every failure comes
    back as a result with [success: false], nothing is thrown. *)
Definition sendEmail (m : Mail) : M SendResult :=
  r <- (if negb isConfigured
        then ret (mkSendResult false "Email service not configured" None)
        else try_catch
               ((if existsb (String.eqb (mail_template m)) (templates ml)
                 then ret tt
                 else throw (ErrorMsg "Template not found")) ;;;
                transporter_sendMail ml m ;;;
                ret (mkSendResult true "Email sent successfully" None))
               (fun e => ret (mkSendResult false "Failed to send email"
                                           (Some (error_message e))))) ;;
  log_sent m (send_success r) ;;;
  ret r.

(** [sendTaskReminder(user, task)]: the template data are read off a
    document of the schema, which cannot fail. *)
Definition sendTaskReminder (user : User) (task : Document) : M SendResult :=
  sendEmail (mkMail (email user) "task-reminder" (_id task)).
End WithMailer.
End EmailService.

(** ** reminderService.js *)

Module ReminderService.
Section WithMailer.
Variable ml : Mailer.

(** [new Date(now.getTime() + 5 * 60 * 1000)] *)
Definition reminderWindow (now : Instant) : Instant := now + 5 * 60 * 1000.

Definition dueFilter (window : Instant) (t : Task) : bool :=
  holds (enabled (reminder t)) true
  && holds (notified (reminder t)) false
  && lte_date (reminderDate (reminder t)) window
  && status_in [pending; in_progress] (status t)
  && Bool.eqb (isArchived t) false.

(** The body of the [map(async (task) => { try ... catch ... })] callback. *)
Definition remind (task : Populated) : M unit :=
  try_catch
    (user <- (match owner task with
              | Some u => ret u
              | None => throw TypeError       (* [user.preferences] on [null] *)
              end) ;;
     (if is_not_false (preferences_notifications_email user)
      then EmailService.sendTaskReminder ml user (doc task) ;;; ret tt
      else ret tt) ;;;
     save (assign_notified true (doc task)) [P_notified])
    (fun _ => ret tt).

Definition checkAndSendReminders : M unit :=
  try_catch
    (now <- new_Date ;;
     tasksWithReminders <- Task_find_populate (dueFilter (reminderWindow now)) ;;
     forEach tasksWithReminders remind)
    (fun _ => ret tt).

(** *** scheduleReminder, cancelReminder *)

Record ReminderResult := mkReminderResult {
  success : bool;
  message : string;
  result_reminderDate : option Instant;
  error : option string
}.

Definition scheduleReminder (taskId : TaskId) (date : Instant) : M ReminderResult :=
  try_catch
    (found <- Task_findById taskId ;;
     match found with
     | None => throw (ErrorMsg "Task not found")
     | Some task =>
         let task := assign_enabled true task in
         let task := assign_reminderDate (Some date) task in
         let task := assign_notified false task in
         save task [P_enabled; P_reminderDate; P_notified] ;;;
         ret (mkReminderResult true "Reminder scheduled successfully" (Some date) None)
     end)
    (fun e => ret (mkReminderResult false "Failed to schedule reminder" None
                                    (Some (error_message e)))).

Definition cancelReminder (taskId : TaskId) : M ReminderResult :=
  try_catch
    (found <- Task_findById taskId ;;
     match found with
     | None => throw (ErrorMsg "Task not found")
     | Some task =>
         let task := assign_enabled false task in
         let task := assign_notified false task in
         let task := assign_reminderDate None task in
         save task [P_enabled; P_notified; P_reminderDate] ;;;
         ret (mkReminderResult true "Reminder cancelled successfully" None None)
     end)
    (fun e => ret (mkReminderResult false "Failed to cancel reminder" None
                                    (Some (error_message e)))).
End WithMailer.

(** *** generateUserSummary *)

Record Summary := mkSummary {
  totalTasks : Z;
  completedTasks : Z;
  pendingTasks : Z;
  overdueTasks : Z;
  todayTasks : Z;
  upcomingTasks : list Document;
  summary_completionRate : Z
}.

Definition emptySummary : Summary := mkSummary 0 0 0 0 0 [] 0.

Definition day_ms : Z := 24 * 60 * 60 * 1000.

(** How the driver binds a [Date] that sits inside a filter: the value
    it holds when the query is built, or the object itself, read when the
    query is sent. *)
Inductive DateBinding := by_value | by_reference.

Section Summary.
Variable tz : Z.                 (* offset of the local time zone, in milliseconds *)
Variable binding : DateBinding.

(** [d.setHours(0, 0, 0, 0)] and [d.setHours(23, 59, 59, 999)], in local time. *)
Definition setHours_0 (d : Instant) : Instant := d - (d + tz) mod day_ms.
Definition setHours_23_59_59_999 (d : Instant) : Instant := setHours_0 d + (day_ms - 1).
(** [d.setDate(d.getDate() + n)] *)
Definition addDays (n : Z) (d : Instant) : Instant := d + n * day_ms.

Definition owned (uid : UserId) (flt : Task -> bool) (t : Task) : bool :=
  bool_decide (userId t = uid) && flt t.

Definition active (t : Task) : bool := Bool.eqb (isArchived t) false.

Definition overdueFilter (bound : Instant) (t : Task) : bool :=
  lt_date (dueDate t) bound
  && status_in [pending; in_progress] (status t)
  && active t.

Definition todayFilter (from upto : Instant) (t : Task) : bool :=
  gte_date (dueDate t) from && lt_date (dueDate t) upto
  && status_in [pending; in_progress] (status t)
  && active t.

Definition upcomingFilter (from upto : Instant) (t : Task) : bool :=
  gte_date (dueDate t) from && lte_date (dueDate t) upto
  && status_in [pending; in_progress] (status t)
  && active t.

(** [.sort({ dueDate: 1 })] *)
Definition due_le (a b : Document) : bool :=
  match dueDate (fields a), dueDate (fields b) with
  | Some x, Some y => x <=? y
  | None, _ => true
  | Some _, None => false
  end.
Fixpoint insert_by_due (d : Document) (l : list Document) : list Document :=
  match l with
  | [] => [d]
  | x :: l' => if due_le d x then d :: l else x :: insert_by_due d l'
  end.
Definition sort_by_due (l : list Document) : list Document :=
  fold_right insert_by_due [] l.

(** The [today] object is shared: the overdue filter is built around it
    before the two [setHours] calls of the due-today filter change it, and
    [tomorrow] and [nextWeek] are copies taken before that.  The seven
    queries of the [Promise.all] only read; the first that rejects sends the
    call to its catch. *)
Definition generateUserSummary (uid : UserId) : M Summary :=
  try_catch
    (today <- new_Date ;;
     let tomorrow := addDays 1 today in
     let nextWeek := addDays 7 today in
     let startOfToday := setHours_0 today in
     let endOfToday := setHours_23_59_59_999 startOfToday in
     let overdueBound := match binding with
                         | by_value => today
                         | by_reference => endOfToday
                         end in
     totalTasks <- Task_countDocuments (owned uid active) ;;
     completedTasks <- Task_countDocuments
       (owned uid (fun t => bool_decide (status t = completed) && active t)) ;;
     pendingTasks <- Task_countDocuments
       (owned uid (fun t => bool_decide (status t = pending) && active t)) ;;
     inProgressTasks <- Task_countDocuments
       (owned uid (fun t => bool_decide (status t = in_progress) && active t)) ;;
     overdueTasks <- Task_countDocuments (owned uid (overdueFilter overdueBound)) ;;
     todayTasks <- Task_countDocuments (owned uid (todayFilter startOfToday endOfToday)) ;;
     upcomingTasks <- Task_find (owned uid (upcomingFilter tomorrow nextWeek)) ;;
     ret (mkSummary totalTasks completedTasks (pendingTasks + inProgressTasks)
                    overdueTasks todayTasks
                    (firstn 5 (sort_by_due upcomingTasks))
                    (completionRate completedTasks totalTasks)))
    (fun _ => ret emptySummary).
End Summary.
(** *** getReminderStats *)

Record ReminderStats := mkReminderStats {
  totalReminders : Z;
  activeReminders : Z;
  sentReminders : Z;
  overdueReminders : Z;
  reminderEfficiency : Z
}.

Definition emptyStats : ReminderStats := mkReminderStats 0 0 0 0 0.

(** The efficiency is the expression of the completion rate, on the sent
    and the total count. *)
Definition getReminderStats : M ReminderStats :=
  try_catch
    (now <- new_Date ;;
     totalReminders <- Task_countDocuments
       (fun t => holds (enabled (reminder t)) true) ;;
     activeReminders <- Task_countDocuments
       (fun t => holds (enabled (reminder t)) true
                 && holds (notified (reminder t)) false) ;;
     sentReminders <- Task_countDocuments
       (fun t => holds (enabled (reminder t)) true
                 && holds (notified (reminder t)) true) ;;
     overdueReminders <- Task_countDocuments
       (fun t => holds (enabled (reminder t)) true
                 && lt_date (reminderDate (reminder t)) now
                 && holds (notified (reminder t)) false) ;;
     ret (mkReminderStats totalReminders activeReminders sentReminders overdueReminders
                          (completionRate sentReminders totalReminders)))
    (fun _ => ret emptyStats).

End ReminderService.

(** ** The function based reminder job

    Its task documents call the reminder's date [datetime] and its flag
    [sent]; they are the [reminderDate] and [notified] of [Reminder]. *)

Module ReminderJob.
Section WithMailer.
Variable ml : Mailer.

(** [sendEmail(options)]: logs and rethrows. *)
Definition sendEmail (m : Mail) : M unit :=
  try_catch
    (transporter_sendMail ml m ;;; log_sent m true)
    (fun e => log_sent m false ;;; throw e).

Definition sendTaskReminder (task : Populated) : M unit :=
  try_catch
    (match owner task with
     | None => throw (ErrorMsg "User email not found")
     | Some user =>
         if String.eqb (email user) ""
         then throw (ErrorMsg "User email not found")
         else if negb (truthy (preferences_notifications_email user))
         then ret tt
         else sendEmail (mkMail (email user) "taskReminder" (_id (doc task)))
     end)
    (fun e => throw e).

Definition dueFilter (now : Instant) (t : Task) : bool :=
  holds (enabled (reminder t)) true
  && holds (notified (reminder t)) false
  && lte_date (reminderDate (reminder t)) now
  && negb (bool_decide (status t = completed))
  && Bool.eqb (isArchived t) false.

(** The body of the [for (const task of tasksWithReminders)] loop. *)
Definition remind (task : Populated) : M unit :=
  try_catch
    (sendTaskReminder task ;;;
     save (assign_notified true (doc task)) [P_notified])
    (fun _ => ret tt).

Definition checkReminders : M unit :=
  try_catch
    (now <- new_Date ;;
     tasksWithReminders <- Task_find_populate (dueFilter now) ;;
     forEach tasksWithReminders remind)
    (fun _ => ret tt).
End WithMailer.
End ReminderJob.

(** ** common/utils/response.js

    A controller answers through one of these helpers; the value below is
    what [res.status(statusCode).json(...)] is given. *)

Module Responses.

Record Reply (D : Type) := mkReply {
  statusCode : Z;
  success : bool;
  message : string;
  data : option D;                          (* [null], or no [data] key *)
  errors : option (list (string * string));
  timestamp : Instant
}.
Arguments mkReply {D} _ _ _ _ _ _.
Arguments statusCode {D} _.
Arguments success {D} _.
Arguments message {D} _.
Arguments data {D} _.
Arguments errors {D} _.
Arguments timestamp {D} _.

Definition successResponse {D} (d : option D) (msg : string) (code : Z) : M (Reply D) :=
  now <- new_Date ;;
  ret (mkReply code true msg d None now).

Definition errorResponse {D} (msg : string) (code : Z)
    (errs : option (list (string * string))) : M (Reply D) :=
  now <- new_Date ;;
  ret (mkReply code false msg None errs now).

Definition notFoundResponse {D} (resource : string) : M (Reply D) :=
  errorResponse (resource ++ " not found") 404 None.

End Responses.

(** ** taskController.js *)

Module TaskController.

Record ReminderPatch := mkReminderPatch {
  patch_enabled : option bool;
  patch_reminderDate : option (option Instant)    (* a date, or [null] *)
}.

(** The request body, as the update schema of the route admits it,
    together with the two protected keys of [Task] that the controller
    deletes from it. *)
Record Updates := mkUpdates {
  upd_userId : option UserId;
  upd_syncVersion : option Z;
  upd_title : option string;
  upd_status : option Status;
  upd_priority : option Priority;
  upd_dueDate : option (option Instant);
  upd_reminder : option ReminderPatch;
  upd_isArchived : option bool
}.

Definition delete_protected (u : Updates) : Updates :=
  mkUpdates None None (upd_title u) (upd_status u) (upd_priority u)
            (upd_dueDate u) (upd_reminder u) (upd_isArchived u).

(** What [$set: { reminder: { ... } }] does to the fields of the stored
    sub-document that the object does not name: the sub-document is
    replaced, or the named fields are merged into it. *)
Inductive NestedSet := replace_subdocument | merge_fields.

Definition set_nested (mode : NestedSet) (p : ReminderPatch) (r : Reminder) : Reminder :=
  match mode with
  | replace_subdocument =>
      mkReminder (patch_enabled p) (mjoin (patch_reminderDate p)) None
  | merge_fields =>
      mkReminder (match patch_enabled p with Some b => Some b | None => enabled r end)
                 (match patch_reminderDate p with Some d => d | None => reminderDate r end)
                 (notified r)
  end.

Definition apply_updates (mode : NestedSet) (u : Updates) (t : Task) : Task :=
  mkTask (default (userId t) (upd_userId u))
         (default (title t) (upd_title u))
         (default (status t) (upd_status u))
         (default (priority t) (upd_priority u))
         (default (dueDate t) (upd_dueDate u))
         (match upd_reminder u with
          | Some p => set_nested mode p (reminder t)
          | None => reminder t
          end)
         (default (isArchived t) (upd_isArchived u))
         (lastModified t)
         (default (syncVersion t) (upd_syncVersion u)).

(** [Task.findOneAndUpdate({ _id, userId }, updates, { new: true })]:
    no save hook runs. *)
Definition Task_findOneAndUpdate (mode : NestedSet) (id : TaskId) (uid : UserId)
    (u : Updates) : M (option Document) :=
  store_op (fun w =>
    match tasks w !! id with
    | Some t =>
        if bool_decide (userId t = uid)
        then let t' := apply_updates mode u t in
             (Normal (Some (mkDocument id t')), set_tasks (<[id := t']> (tasks w)) w)
        else (Normal None, w)
    | None => (Normal None, w)
    end).

Inductive Response :=
| success_200 (task : Document)
| notFound_404
| error_500.

(** [updateTask(req, res)], with [req.params.taskId], [req.user._id] and
    [req.body]; the store raises no validation or cast error on a body of
    the schema, so the catch answers 500. *)
Definition updateTask (mode : NestedSet) (taskId : TaskId) (uid : UserId)
    (body : Updates) : M Response :=
  try_catch
    (let updates := delete_protected body in
     task <- Task_findOneAndUpdate mode taskId uid updates ;;
     match task with
     | None => ret notFound_404
     | Some t => ret (success_200 t)
     end)
    (fun _ => ret error_500).
(** *** getTaskById, archiveTask, deleteTask, bulkUpdateTasks, getTasksDueSoon *)

(** [.populate('userId', 'name email')]: of the owner, the name and the
    address only. *)
Definition populate_name_email (w : World) (d : Document) : Populated :=
  mkPopulated d ((fun u => mkUser (name u) (email u) None) <$> users w !! userId (fields d)).

(** [Task.findOne({ _id, userId }).populate('userId', 'name email')] *)
Definition Task_findOne_populate (id : TaskId) (uid : UserId) : M (option Populated) :=
  store_op (fun w =>
    match tasks w !! id with
    | Some t =>
        if bool_decide (userId t = uid)
        then (Normal (Some (populate_name_email w (mkDocument id t))), w)
        else (Normal None, w)
    | None => (Normal None, w)
    end).

Definition getTaskById (taskId : TaskId) (uid : UserId) : M (Responses.Reply Populated) :=
  try_catch
    (task <- Task_findOne_populate taskId uid ;;
     match task with
     | None => Responses.notFoundResponse "Task"
     | Some t => Responses.successResponse (Some t) "Task retrieved successfully" 200
     end)
    (fun _ => Responses.errorResponse "Failed to retrieve task" 500 None).

(** The update [{ isArchived: archive }]; it has no nested object, so the
    way of [NestedSet] does not matter. *)
Definition archive_update (archive : bool) : Updates :=
  mkUpdates None None None None None None None (Some archive).

(** [Task.findOneAndUpdate(...).populate('userId', 'name email')] *)
Definition Task_findOneAndUpdate_populate (mode : NestedSet) (id : TaskId) (uid : UserId)
    (u : Updates) : M (option Populated) :=
  task <- Task_findOneAndUpdate mode id uid u ;;
  fun w => (Normal (populate_name_email w <$> task), w).

Definition archiveTask (taskId : TaskId) (uid : UserId) (archive : bool)
    : M (Responses.Reply Populated) :=
  try_catch
    (task <- Task_findOneAndUpdate_populate merge_fields taskId uid
               (archive_update archive) ;;
     match task with
     | None => Responses.notFoundResponse "Task"
     | Some t =>
         Responses.successResponse (Some t)
           (if archive then "Task archived successfully"
            else "Task unarchived successfully") 200
     end)
    (fun _ => Responses.errorResponse "Failed to archive task" 500 None).

(** [Task.findOneAndDelete({ _id, userId })] *)
Definition Task_findOneAndDelete (id : TaskId) (uid : UserId) : M (option Document) :=
  store_op (fun w =>
    match tasks w !! id with
    | Some t =>
        if bool_decide (userId t = uid)
        then (Normal (Some (mkDocument id t)), set_tasks (delete id (tasks w)) w)
        else (Normal None, w)
    | None => (Normal None, w)
    end).

Definition deleteTask (taskId : TaskId) (uid : UserId) : M (Responses.Reply unit) :=
  try_catch
    (task <- Task_findOneAndDelete taskId uid ;;
     match task with
     | None => Responses.notFoundResponse "Task"
     | Some _ => Responses.successResponse None "Task deleted successfully" 200
     end)
    (fun _ => Responses.errorResponse "Failed to delete task" 500 None).









End TaskController.

(** ** common/models/Task.js: virtuals, methods, statics *)

Module TaskModel.

(** The virtual [isOverdue]. *)
Definition isOverdue (t : Task) : M bool :=
  match dueDate t with
  | None => ret false
  | Some due =>
      if bool_decide (status t = completed) || bool_decide (status t = cancelled)
      then ret false
      else now <- new_Date ;; ret (due <? now)
  end.

(** The method [setReminder(reminderDate)] of a document. *)
Definition setReminder (d : Document) (date : Instant) : M unit :=
  let d := assign_enabled true d in
  let d := assign_reminderDate (Some date) d in
  let d := assign_notified false d in
  save d [P_enabled; P_reminderDate; P_notified].

(** The static [getOverdueTasks(userId)]. *)
Definition getOverdueTasks (uid : UserId) : M (list Document) :=
  now <- new_Date ;;
  Task_find (fun t => bool_decide (userId t = uid)
                      && lt_date (dueDate t) now
                      && status_in [pending; in_progress] (status t)
                      && Bool.eqb (isArchived t) false).

End TaskModel.

(** * Vocabulary of the properties *)

(** ** Store and outbox *)

Definition available (w : World) : bool :=
  match faults w with true :: _ => false | _ => true end.

Definition drop_fault (w : World) : World :=
  match faults w with _ :: fs => set_faults fs w | [] => w end.

Definition push_all (l : list Sent) (w : World) : World :=
  mkWorld (tasks w) (users w) (clock w) (faults w) (outbox w ++ l).

Definition mail_id (s : Sent) : TaskId := mail_task (sent_mail s).

(** The document that a save of the flag leaves in the store. *)
Definition marked (now : Instant) (d : Document) (stored : Task) : Task :=
  pre_save now (fields (assign_notified true d))
           (write_path (fields (assign_notified true d)) P_notified stored).

Definition flagged (w : World) (i : TaskId) : Prop :=
  exists t, tasks w !! i = Some t /\ notified (reminder t) = Some true.

Definition unflagged (w : World) (i : TaskId) : Prop :=
  exists t, tasks w !! i = Some t /\ notified (reminder t) = Some false.

(** What a dispatch may change in a stored task, and in the collection. *)
Definition raised (t t' : Task) : Prop :=
  notified (reminder t') = Some true
  /\ enabled (reminder t') = enabled (reminder t)
  /\ reminderDate (reminder t') = reminderDate (reminder t)
  /\ status t' = status t /\ isArchived t' = isArchived t
  /\ userId t' = userId t /\ dueDate t' = dueDate t.

Definition only_raises (m m' : gmap positive Task) : Prop :=
  forall i, m' !! i = m !! i
            \/ exists t t', m !! i = Some t /\ m' !! i = Some t' /\ raised t t'.

(** The world after a run of dispatches by the handler [h]. *)
Definition run_all (h : Populated -> M unit) (ds : list Populated) (w : World) : World :=
  snd (forEach ds h w).

(** The shape shared by the two dispatch handlers: the mails go out,
    then, if the handler gets that far, the flag is saved. *)
Definition dispatch_effect (mails : Populated -> list Sent) (saves : Populated -> bool)
    (task : Populated) (w : World) : World :=
  if saves task
  then snd (save (assign_notified true (doc task)) [P_notified] (push_all (mails task) w))
  else push_all (mails task) w.

Definition has_owner (task : Populated) : bool :=
  match owner task with Some _ => true | None => false end.

(** ** The service *)

(** Whether the class based mailer gets a mail out. *)
Definition delivers (ml : Mailer) (m : Mail) : bool :=
  configured ml && existsb (String.eqb (mail_template m)) (templates ml) && transport ml m.

Definition reminderMail (task : Populated) (u : User) : Mail :=
  mkMail (email u) "task-reminder" (_id (doc task)).

(** What one dispatch of the service adds to the outbox. *)
Definition mails_of (ml : Mailer) (task : Populated) : list Sent :=
  match owner task with
  | Some u => if is_not_false (preferences_notifications_email u)
              then [mkSent (reminderMail task u) (delivers ml (reminderMail task u))]
              else []
  | None => []
  end.

(** The tasks that a scan at [now] selects. *)
Definition due (now : Instant) (w : World) : list Populated :=
  map (populate w)
      (matching (ReminderService.dueFilter (ReminderService.reminderWindow now)) w).

(** The world after the cron job of the service ran at instant [now]. *)
Definition cycle (ml : Mailer) (now : Instant) (w : World) : World :=
  snd (ReminderService.checkAndSendReminders ml (set_clock now w)).

(** The cron job, run at the instants of a schedule, each time against
    a mailer in whatever condition. *)
Fixpoint cycles (sched : list (Mailer * Instant)) (w : World) : World :=
  match sched with
  | [] => w
  | (ml, now) :: rest => cycles rest (cycle ml now w)
  end.

(** ** The job *)

Definition jobMail (task : Populated) (u : User) : Mail :=
  mkMail (email u) "taskReminder" (_id (doc task)).

(** The owner can be written to and has the channel switched on. *)
Definition reachable (u : User) : bool :=
  negb (String.eqb (email u) "") && truthy (preferences_notifications_email u).

Definition job_mails_of (ml : Mailer) (task : Populated) : list Sent :=
  match owner task with
  | Some u => if reachable u
              then [mkSent (jobMail task u) (transport ml (jobMail task u))]
              else []
  | None => []
  end.

(** The dispatch of the job gets as far as its save. *)
Definition job_saves (ml : Mailer) (task : Populated) : bool :=
  match owner task with
  | Some u => negb (String.eqb (email u) "")
              && (negb (truthy (preferences_notifications_email u))
                  || transport ml (jobMail task u))
  | None => false
  end.

Definition job_due (now : Instant) (w : World) : list Populated :=
  map (populate w) (matching (ReminderJob.dueFilter now) w).

Definition job_cycle (ml : Mailer) (now : Instant) (w : World) : World :=
  snd (ReminderJob.checkReminders ml (set_clock now w)).

Fixpoint job_cycles (sched : list (Mailer * Instant)) (w : World) : World :=
  match sched with
  | [] => w
  | (ml, now) :: rest => job_cycles rest (job_cycle ml now w)
  end.

(** ** The summary *)


(** The bound of the overdue filter, as the driver binds the [today]
    object of [generateUserSummary]. *)
Definition overdueBound (tz : Z) (binding : ReminderService.DateBinding)
    (now : Instant) : Instant :=
  match binding with
  | ReminderService.by_value => now
  | ReminderService.by_reference =>
      ReminderService.setHours_23_59_59_999 tz (ReminderService.setHours_0 tz now)
  end.



(** The rate is within one half of the exact quotient. *)
Definition within_half (c t : Z) : bool :=
  2 * Z.abs (completionRate c t * t - 100 * c) <=? t.

Definition rates_within_half (n : nat) : bool :=
  forallb (fun t => forallb (fun c => within_half (Z.of_nat c) (Z.of_nat t)) (seq 0 (S t)))
          (seq 1 n).

(** ** Further vocabulary *)

(** The stored task after a save of the three reminder paths. *)
Definition with_reminder (r : Reminder) (now : Instant) (stored : Task) : Task :=
  mkTask (userId stored) (title stored) (status stored) (priority stored)
         (dueDate stored) r (isArchived stored) now (syncVersion stored + 1).

(** The world is the same but for the outage script. *)
Definition same_but_faults (w w' : World) : Prop :=
  tasks w' = tasks w /\ users w' = users w /\ clock w' = clock w
  /\ outbox w' = outbox w.

(** The dispatch changed the flag and the two stamps of the save hook,
    and nothing else. *)
Definition flag_saved (t t' : Task) : Prop :=
  raised t t' /\ title t' = title t /\ priority t' = priority t.


(** One of the next [n] operations of the store is rejected. *)
Definition outage_within (n : nat) (w : World) : bool :=
  existsb (fun b : bool => b) (firstn n (faults w)).

(** A computation that only reads, makes at most [n] calls to the store,
    and throws when one of them is rejected. *)
Definition reads {A} (n : nat) (m : M A) : Prop :=
  forall w, exists c w',
    m w = (c, w') /\ same_but_faults w w'
    /\ (outage_within n w = true -> exists e, c = Throw e).

(** The number of the user's tasks that pass a filter. *)
Definition count_of (uid : UserId) (flt : Task -> bool) (w : World) : Z :=
  Z.of_nat (length (matching (ReminderService.owned uid flt) w)).




(** The task is stored under the identifier of the document, as the
    document has it. *)
Definition stored_as (w : World) (d : Document) : Prop :=
  tasks w !! _id d = Some (fields d).

(** ** Sample worlds *)

Definition alice : User := mkUser "Alice" "alice@example.org" (Some true).
Definition bob : User := mkUser "Bob" "bob@example.org" (Some false).

Definition armed (d : Instant) : Reminder := mkReminder (Some true) (Some d) (Some false).

Definition task_of (uid : UserId) (ttl : string) (r : Reminder) : Task :=
  mkTask uid ttl pending medium None r false 0 1.

(** Two tasks armed for instant 1000: task 10 of Alice, task 11 of Bob,
    who has switched the email channel off. *)
Definition office : World :=
  mkWorld (list_to_map [(10%positive, task_of 1 "report" (armed 1000));
                        (11%positive, task_of 2 "call" (armed 1000))])
          (list_to_map [(1%positive, alice); (2%positive, bob)])
          0 [] [].

Definition smtp_up : Mailer :=
  mkMailer true ["task-reminder"; "taskReminder"]%string (fun _ => true).
Definition smtp_down : Mailer :=
  mkMailer true ["task-reminder"; "taskReminder"]%string (fun _ => false).

(** Task 10 as a scan of [office] returns it. *)
Definition report_doc : Populated :=
  mkPopulated (mkDocument 10 (task_of 1 "report" (armed 1000))) (Some alice).

(** Alice's task alone, with a store that answers the scan and rejects
    the operation after it. *)
Definition solo : World :=
  mkWorld (list_to_map [(10%positive, task_of 1 "report" (armed 1000))])
          (list_to_map [(1%positive, alice)])
          0 [false; true] [].





Definition noon : Instant := 1718452800000.


(** Alice's week, seen at noon of 2024-06-15: task 30 is completed and
    has an armed reminder, 31 is due in two days, 32 is cancelled and due
    in a day and a half, 33 was due the day before and is in progress, and
    35 belongs to a user that is not there. *)
Definition unarmed : Reminder := mkReminder (Some false) None (Some false).

Definition week : World :=
  mkWorld (list_to_map
             [(30%positive, mkTask 1 "slides" completed medium (Some noon) (armed 1000)
                                   false 0 1);
              (31%positive, mkTask 1 "review" pending high (Some (noon + 172800000)) unarmed
                                   false 0 1);
              (32%positive, mkTask 1 "trip" cancelled low (Some (noon + 129600000)) unarmed
                                   false 0 1);
              (33%positive, mkTask 1 "audit" in_progress medium (Some (noon - 86400000))
                                   (armed 1000) false 0 1);
              (35%positive, task_of 9 "ghost" (armed 1000))])
          (list_to_map [(1%positive, alice)])
          noon [] [].

(** The same week, with a store that answers two operations and rejects
    the third. *)
Definition week_outage : World := set_faults [false; false; true] week.


(* END-VOCABULARY *)
(** * Properties *)

(** ** The store *)

Lemma store_op_available {A} (op : M A) w :
  available w = true -> store_op op w = op (drop_fault w).
Proof.
  unfold available, store_op, drop_fault.
  destruct (faults w) as [|[] fs]; intros; try discriminate; reflexivity.
Qed.

Lemma store_op_unavailable {A} (op : M A) w :
  available w = false ->
  store_op op w = (Throw StoreUnavailable, drop_fault w).
Proof.
  unfold available, store_op, drop_fault.
  destruct (faults w) as [|[] fs]; intros; try discriminate; reflexivity.
Qed.

Lemma drop_fault_tasks w : tasks (drop_fault w) = tasks w.
Proof. unfold drop_fault; destruct (faults w); reflexivity. Qed.
Lemma drop_fault_users w : users (drop_fault w) = users w.
Proof. unfold drop_fault; destruct (faults w); reflexivity. Qed.
Lemma drop_fault_clock w : clock (drop_fault w) = clock w.
Proof. unfold drop_fault; destruct (faults w); reflexivity. Qed.
Lemma drop_fault_outbox w : outbox (drop_fault w) = outbox w.
Proof. unfold drop_fault; destruct (faults w); reflexivity. Qed.
Lemma drop_fault_nil w : faults w = [] -> drop_fault w = w.
Proof. unfold drop_fault; intros ->; reflexivity. Qed.

Lemma nil_available w : faults w = [] -> available w = true.
Proof. unfold available; intros ->; reflexivity. Qed.

Lemma push_all_nil w : push_all [] w = w.
Proof. destruct w; unfold push_all; cbn; rewrite app_nil_r; reflexivity. Qed.


Lemma save_notified_spec d w stored :
  tasks w !! _id d = Some stored ->
  available w = true ->
  save (assign_notified true d) [P_notified] w
  = (Normal tt, set_tasks (<[_id d := marked (clock w) d stored]> (tasks w)) (drop_fault w)).
Proof.
  intros Hs Ha. unfold save. rewrite store_op_available by exact Ha.
  cbn [_id assign_notified assign].
  rewrite drop_fault_tasks, Hs, drop_fault_clock. reflexivity.
Qed.

Lemma save_notified_cases d w :
  exists c w', save (assign_notified true d) [P_notified] w = (c, w')
    /\ outbox w' = outbox w /\ users w' = users w /\ clock w' = clock w
    /\ (faults w = [] -> faults w' = [])
    /\ (tasks w' = tasks w
        \/ exists stored, tasks w !! _id d = Some stored
             /\ tasks w' = <[_id d := marked (clock w) d stored]> (tasks w))
    /\ (forall stored, available w = true -> tasks w !! _id d = Some stored ->
          c = Normal tt /\ tasks w' = <[_id d := marked (clock w) d stored]> (tasks w)).
Proof.
  assert (faults w = [] -> faults (drop_fault w) = []) as Hnil
    by (intros Hf; rewrite (drop_fault_nil w Hf); exact Hf).
  destruct (available w) eqn:Ha.
  - destruct (tasks w !! _id d) as [stored|] eqn:Hs.
    + rewrite (save_notified_spec d w stored Hs Ha).
      eexists _, _. split; [reflexivity|]. cbn.
      rewrite drop_fault_outbox, drop_fault_users, drop_fault_clock.
      repeat split; eauto; congruence.
    + unfold save. rewrite store_op_available by exact Ha.
      cbn [_id assign_notified assign]. rewrite drop_fault_tasks, Hs.
      eexists _, _. split; [reflexivity|].
      rewrite drop_fault_outbox, drop_fault_users, drop_fault_clock, drop_fault_tasks.
      repeat split; eauto; discriminate.
  - unfold save. rewrite store_op_unavailable by exact Ha.
    eexists _, _. split; [reflexivity|].
    rewrite drop_fault_outbox, drop_fault_users, drop_fault_clock, drop_fault_tasks.
    repeat split; eauto; discriminate.
Qed.

(** ** Documents of the collection *)

Lemma all_tasks_In w d :
  In d (all_tasks w) <-> tasks w !! _id d = Some (fields d).
Proof.
  unfold all_tasks. rewrite in_map_iff. split.
  - intros ([i t] & <- & Hin). cbn.
    apply list_elem_of_In in Hin. by apply elem_of_map_to_list in Hin.
  - intros H. exists (_id d, fields d). split; [by destruct d|].
    apply list_elem_of_In. by apply elem_of_map_to_list.
Qed.

Lemma all_tasks_NoDup w : NoDup (map _id (all_tasks w)).
Proof.
  unfold all_tasks. rewrite map_map. cbn.
  exact (NoDup_fst_map_to_list (tasks w)).
Qed.

Lemma matching_In flt w d :
  In d (matching flt w) <-> tasks w !! _id d = Some (fields d) /\ flt (fields d) = true.
Proof. unfold matching. rewrite filter_In, all_tasks_In. reflexivity. Qed.

Lemma NoDup_map_filter {A B} (f : A -> B) (p : A -> bool) (l : list A) :
  NoDup (map f l) -> NoDup (map f (List.filter p l)).
Proof.
  induction l as [|x l IH]; cbn; [done|].
  intros Hnd. apply NoDup_cons in Hnd as [Hx Hl].
  destruct (p x); cbn; [|by apply IH].
  apply NoDup_cons. split; [|by apply IH].
  intros Hin. apply Hx.
  apply list_elem_of_In in Hin. apply in_map_iff in Hin as (y & Hy & Hin).
  apply filter_In in Hin as [Hin _].
  apply list_elem_of_In. apply in_map_iff. eauto.
Qed.

Lemma matching_NoDup flt w : NoDup (map _id (matching flt w)).
Proof. unfold matching. apply NoDup_map_filter, all_tasks_NoDup. Qed.

Lemma populated_In flt w task :
  In task (map (populate w) (matching flt w)) ->
  tasks w !! _id (doc task) = Some (fields (doc task))
  /\ flt (fields (doc task)) = true
  /\ owner task = users w !! userId (fields (doc task)).
Proof.
  rewrite in_map_iff. intros (d & <- & Hd).
  apply matching_In in Hd as [Hl Hf]. cbn. done.
Qed.

Lemma populated_NoDup flt w :
  NoDup (map (fun task => _id (doc task)) (map (populate w) (matching flt w))).
Proof. rewrite map_map. cbn. apply (matching_NoDup flt w). Qed.

(** ** Flags only go up *)

Lemma raised_marked now d stored : raised stored (marked now d stored).
Proof. unfold raised. cbn. done. Qed.

Lemma raised_trans t1 t2 t3 : raised t1 t2 -> raised t2 t3 -> raised t1 t3.
Proof. unfold raised. intuition congruence. Qed.

Lemma only_raises_refl m : only_raises m m.
Proof. intros i. by left. Qed.

Lemma only_raises_trans m1 m2 m3 :
  only_raises m1 m2 -> only_raises m2 m3 -> only_raises m1 m3.
Proof.
  intros H12 H23 i.
  destruct (H23 i) as [E23|(t2 & t3 & E2 & E3 & R23)];
    destruct (H12 i) as [E12|(t1 & t2' & E1 & E2' & R12)].
  - left. congruence.
  - right. exists t1, t2'. rewrite E23. done.
  - right. exists t2, t3. rewrite <- E12. done.
  - right. exists t1, t3. split; [done|]. split; [done|].
    assert (t2' = t2) as -> by congruence. eapply raised_trans; eauto.
Qed.

Lemma only_raises_insert m i now d stored :
  m !! i = Some stored -> only_raises m (<[i := marked now d stored]> m).
Proof.
  intros Hs j. destruct (decide (i = j)) as [<-|Hne].
  - right. exists stored, (marked now d stored).
    rewrite lookup_insert_eq. split; [done|]. split; [done|].
    apply raised_marked.
  - left. by rewrite lookup_insert_ne.
Qed.

Lemma flagged_insert_marked w i j now d stored :
  flagged w i -> tasks w !! j = Some stored ->
  exists t, <[j := marked now d stored]> (tasks w) !! i = Some t
            /\ notified (reminder t) = Some true.
Proof.
  intros (t & Ht & Hn) Hs. destruct (decide (j = i)) as [->|Hne].
  - rewrite lookup_insert_eq. eexists; split; [reflexivity|]. reflexivity.
  - rewrite lookup_insert_ne by done. eauto.
Qed.

Lemma unflagged_not_flagged w i : unflagged w i -> flagged w i -> False.
Proof. intros (t & Ht & Hn) (t' & Ht' & Hn'). congruence. Qed.

Lemma unflagged_back w w' i :
  only_raises (tasks w) (tasks w') -> unflagged w' i -> unflagged w i.
Proof.
  intros Hr (t' & Ht' & Hn'). destruct (Hr i) as [E|(t & t2 & Ht & Ht2 & R)].
  - exists t'. rewrite <- E. done.
  - destruct R as [R _]. congruence.
Qed.

(** ** A run of dispatches, for either handler *)

Section Dispatch.
Variable h : Populated -> M unit.
Variable mails : Populated -> list Sent.
Variable saves : Populated -> bool.
Hypothesis h_effect :
  forall task w, h task w = (Normal tt, dispatch_effect mails saves task w).
Hypothesis mails_own :
  forall task s, In s (mails task) -> mail_id s = _id (doc task).
Hypothesis mails_single :
  forall task, NoDup (map mail_id (mails task)).

Lemma step_cases task w :
  let w' := dispatch_effect mails saves task w in
  outbox w' = outbox w ++ mails task
  /\ users w' = users w /\ clock w' = clock w
  /\ (faults w = [] -> faults w' = [])
  /\ (tasks w' = tasks w
      \/ exists stored, tasks w !! _id (doc task) = Some stored
           /\ tasks w' = <[_id (doc task) := marked (clock w) (doc task) stored]> (tasks w))
  /\ (forall stored, saves task = true -> available w = true ->
        tasks w !! _id (doc task) = Some stored ->
        tasks w' = <[_id (doc task) := marked (clock w) (doc task) stored]> (tasks w)).
Proof.
  unfold dispatch_effect. destruct (saves task).
  - destruct (save_notified_cases (doc task) (push_all (mails task) w))
      as (c & w' & -> & Hout & Hu & Hc & Hf & Ht & Hok).
    cbn in *. repeat split; eauto.
    intros stored _ Ha Hs. apply (Hok stored); assumption.
  - cbn. repeat split; eauto. intros; discriminate.
Qed.

Lemma forEach_run ds w : forEach ds h w = (Normal tt, run_all h ds w).
Proof.
  unfold run_all. revert w. induction ds as [|d ds IH]; intros w; cbn.
  - reflexivity.
  - unfold bind. rewrite h_effect, IH. reflexivity.
Qed.

Lemma run_all_cons d ds w :
  run_all h (d :: ds) w = run_all h ds (dispatch_effect mails saves d w).
Proof. unfold run_all. cbn. unfold bind. rewrite h_effect. reflexivity. Qed.

Lemma run_all_outbox ds w :
  outbox (run_all h ds w) = outbox w ++ flat_map mails ds.
Proof.
  revert w. induction ds as [|d ds IH]; intros w.
  - cbn. by rewrite app_nil_r.
  - rewrite run_all_cons, IH.
    destruct (step_cases d w) as (Ho & _).
    cbn. rewrite Ho, <- app_assoc. reflexivity.
Qed.

Lemma run_all_frame ds w :
  users (run_all h ds w) = users w
  /\ clock (run_all h ds w) = clock w
  /\ (faults w = [] -> faults (run_all h ds w) = []).
Proof.
  revert w. induction ds as [|d ds IH]; intros w.
  - cbn. done.
  - rewrite run_all_cons.
    destruct (step_cases d w) as (_ & Hu & Hc & Hf & _).
    destruct (IH (dispatch_effect mails saves d w)) as (IHu & IHc & IHf).
    repeat split; [congruence | congruence | auto].
Qed.

Lemma run_all_only_raises ds w :
  only_raises (tasks w) (tasks (run_all h ds w)).
Proof.
  revert w. induction ds as [|d ds IH]; intros w; [apply only_raises_refl|].
  rewrite run_all_cons.
  destruct (step_cases d w) as (_ & _ & _ & _ & Ht & _).
  eapply only_raises_trans; [|apply IH].
  destruct Ht as [->|(stored & Hs & ->)]; [apply only_raises_refl|].
  by apply only_raises_insert.
Qed.

(** A flag that is up stays up. *)
Lemma run_all_flagged ds w i : flagged w i -> flagged (run_all h ds w) i.
Proof.
  revert w. induction ds as [|d ds IH]; intros w Hfl; [exact Hfl|].
  rewrite run_all_cons.
  destruct (step_cases d w) as (_ & _ & _ & _ & Ht & _).
  apply IH. unfold flagged.
  destruct Ht as [->|(stored & Hs & ->)]; [exact Hfl|].
  eapply flagged_insert_marked; eauto.
Qed.

(** With the store up, every dispatched task whose handler reaches the
    save ends up flagged. *)
Lemma run_all_marks ds w task :
  faults w = [] ->
  In task ds -> saves task = true ->
  is_Some (tasks w !! _id (doc task)) ->
  flagged (run_all h ds w) (_id (doc task)).
Proof.
  revert w. induction ds as [|d ds IH]; intros w Hf Hin Ho Hs; [destruct Hin|].
  rewrite run_all_cons.
  destruct (step_cases d w) as (_ & _ & _ & Hf' & Ht & Hok).
  destruct Hin as [->|Hin].
  - apply run_all_flagged. destruct Hs as [stored Hs].
    unfold flagged. rewrite (Hok stored Ho (nil_available w Hf) Hs).
    exists (marked (clock w) (doc task) stored).
    rewrite lookup_insert_eq. done.
  - apply IH; auto.
    destruct Ht as [->|(stored & Hst & ->)]; [exact Hs|].
    destruct (decide (_id (doc d) = _id (doc task))) as [E|E].
    + rewrite E, lookup_insert_eq. eauto.
    + by rewrite lookup_insert_ne.
Qed.

Lemma mails_In ds s :
  In s (flat_map mails ds) -> exists task, In task ds /\ In s (mails task).
Proof. rewrite in_flat_map. done. Qed.

Lemma mails_NoDup ds :
  NoDup (map (fun task => _id (doc task)) ds) ->
  NoDup (map mail_id (flat_map mails ds)).
Proof.
  induction ds as [|d ds IH]; cbn; [done|].
  intros Hnd. apply NoDup_cons in Hnd as [Hd Hds].
  rewrite map_app. apply NoDup_app. repeat split.
  - apply mails_single.
  - intros i Hi Hi'. apply Hd.
    apply list_elem_of_In, in_map_iff in Hi as (s & Es & Hs).
    apply list_elem_of_In, in_map_iff in Hi' as (s' & Es' & Hs').
    apply mails_In in Hs' as (task & Htask & Hs').
    apply mails_own in Hs. apply mails_own in Hs'.
    apply list_elem_of_In, in_map_iff. exists task. split; [congruence|done].
  - by apply IH.
Qed.
End Dispatch.

(** ** The service: one dispatch, one cycle *)

Lemma sendEmail_spec ml m w :
  exists r, EmailService.sendEmail ml m w
            = (Normal r, push_outbox (mkSent m (delivers ml m)) w)
            /\ send_success r = delivers ml m.
Proof.
  unfold EmailService.sendEmail, EmailService.isConfigured, delivers,
    bind, try_catch, ret, throw, log_sent, transporter_sendMail.
  destruct (configured ml); cbn.
  - destruct (existsb _ _); cbn.
    + destruct (transport ml m); cbn; eauto.
    + eauto.
  - eauto.
Qed.

Lemma remind_effect ml task w :
  ReminderService.remind ml task w
  = (Normal tt, dispatch_effect (mails_of ml) has_owner task w).
Proof.
  unfold dispatch_effect, has_owner, mails_of.
  destruct (owner task) as [u|] eqn:Ho.
  - destruct (sendEmail_spec ml (reminderMail task u) w) as (r & Hr & _).
    unfold ReminderService.remind, EmailService.sendTaskReminder,
      try_catch, bind, ret.
    rewrite Ho.
    change (mkMail (email u) "task-reminder" (_id (doc task))) with (reminderMail task u).
    destruct (is_not_false _).
    + rewrite Hr. unfold push_outbox, push_all.
      destruct (save _ _ _) as [[[]|e] w']; reflexivity.
    + rewrite push_all_nil.
      destruct (save _ _ _) as [[[]|e] w']; reflexivity.
  - unfold ReminderService.remind, try_catch, bind, ret, throw.
    rewrite Ho, push_all_nil. reflexivity.
Qed.

Lemma mails_of_In ml task s :
  In s (mails_of ml task) ->
  mail_id s = _id (doc task)
  /\ exists u, owner task = Some u
       /\ is_not_false (preferences_notifications_email u) = true
       /\ s = mkSent (reminderMail task u) (delivers ml (reminderMail task u)).
Proof.
  unfold mails_of. destruct (owner task) as [u|]; [|intros []].
  destruct (is_not_false _) eqn:E; [|intros []].
  intros [<-|[]]. split; [reflexivity|]. eauto.
Qed.

Lemma mails_of_own ml task s : In s (mails_of ml task) -> mail_id s = _id (doc task).
Proof. intros Hs. by apply mails_of_In in Hs as [? _]. Qed.


Lemma holds_true o b : holds o b = true <-> o = Some b.
Proof.
  unfold holds. destruct o as [x|]; [|split; discriminate].
  rewrite Bool.eqb_true_iff. split; congruence.
Qed.

Lemma dueFilter_true window t :
  ReminderService.dueFilter window t = true <->
  enabled (reminder t) = Some true
  /\ notified (reminder t) = Some false
  /\ (exists d, reminderDate (reminder t) = Some d /\ d <= window)
  /\ (status t = pending \/ status t = in_progress)
  /\ isArchived t = false.
Proof.
  unfold ReminderService.dueFilter, lte_date, status_in.
  rewrite !andb_true_iff, !holds_true, Bool.eqb_true_iff.
  cbn. rewrite !orb_true_iff, !bool_decide_eq_true.
  destruct (reminderDate (reminder t)) as [d|].
  - rewrite Z.leb_le. split.
    + intros ((((He & Hn) & Hd) & Hs) & Ha).
      split; [exact He|]. split; [exact Hn|]. split; [by exists d|].
      split; [|exact Ha]. destruct Hs as [Hs|[Hs|Hs]]; [by left|by right|discriminate].
    + intros (He & Hn & (d' & Ed & Hd) & Hs & Ha).
      assert (d' = d) as -> by congruence.
      repeat split; try assumption. destruct Hs as [Hs|Hs]; [by left|by right; left].
  - split.
    + intros ((((_ & _) & Hd) & _) & _). discriminate.
    + intros (_ & _ & (d' & Ed & _) & _). discriminate.
Qed.

Lemma checkAndSendReminders_run ml w :
  ReminderService.checkAndSendReminders ml w
  = (Normal tt, if available w
                then run_all (ReminderService.remind ml) (due (clock w) w) (drop_fault w)
                else drop_fault w).
Proof.
  unfold ReminderService.checkAndSendReminders, try_catch, bind, new_Date,
    Task_find_populate, ret.
  destruct (available w) eqn:Ha.
  - rewrite store_op_available by exact Ha.
    unfold due, matching, all_tasks, populate.
    rewrite drop_fault_tasks, drop_fault_users.
    rewrite (forEach_run _ _ _ (remind_effect ml)). reflexivity.
  - rewrite store_op_unavailable by exact Ha. reflexivity.
Qed.

Lemma cycle_eq ml now w :
  faults w = [] ->
  cycle ml now w = run_all (ReminderService.remind ml) (due now w) (set_clock now w).
Proof.
  intros Hf. unfold cycle. rewrite checkAndSendReminders_run.
  assert (faults (set_clock now w) = []) as Hf' by exact Hf.
  rewrite (nil_available _ Hf'), (drop_fault_nil _ Hf'). reflexivity.
Qed.


Lemma cycle_only_raises ml now w : only_raises (tasks w) (tasks (cycle ml now w)).
Proof.
  unfold cycle. rewrite checkAndSendReminders_run. cbn [snd].
  assert (tasks (drop_fault (set_clock now w)) = tasks w) as E
    by (rewrite drop_fault_tasks; reflexivity).
  destruct (available _).
  - rewrite <- E at 1. apply (run_all_only_raises _ _ _ (remind_effect ml)).
  - rewrite E. apply only_raises_refl.
Qed.


Lemma cycle_outbox ml now w :
  faults w = [] ->
  outbox (cycle ml now w) = outbox w ++ flat_map (mails_of ml) (due now w).
Proof.
  intros Hf. rewrite (cycle_eq ml now w Hf).
  rewrite (run_all_outbox _ _ _ (remind_effect ml)). reflexivity.
Qed.

Lemma cycle_marks ml now w task :
  faults w = [] -> In task (due now w) -> has_owner task = true ->
  flagged (cycle ml now w) (_id (doc task)).
Proof.
  intros Hf Hin Ho. rewrite (cycle_eq ml now w Hf).
  apply (run_all_marks _ _ _ (remind_effect ml)); auto.
  destruct (populated_In _ _ _ Hin) as (Hl & _). cbn. eauto.
Qed.


Lemma cycle_outbox_any ml now w :
  outbox (cycle ml now w)
  = outbox w ++ (if available w then flat_map (mails_of ml) (due now w) else []).
Proof.
  unfold cycle. rewrite checkAndSendReminders_run. cbn [snd].
  change (available (set_clock now w)) with (available w).
  destruct (available w).
  - rewrite (run_all_outbox _ _ _ (remind_effect ml)), drop_fault_outbox.
    reflexivity.
  - rewrite drop_fault_outbox, app_nil_r. reflexivity.
Qed.

(** ** The job: one dispatch, one cycle *)

Lemma job_remind_effect ml task w :
  ReminderJob.remind ml task w
  = (Normal tt, dispatch_effect (job_mails_of ml) (job_saves ml) task w).
Proof.
  unfold dispatch_effect, job_saves, job_mails_of, reachable.
  unfold ReminderJob.remind, ReminderJob.sendTaskReminder, ReminderJob.sendEmail,
    try_catch, bind, ret, throw, log_sent, transporter_sendMail.
  destruct (owner task) as [u|]; [|by rewrite push_all_nil].
  destruct (String.eqb (email u) ""); cbn [negb andb]; [by rewrite push_all_nil|].
  destruct (truthy _); cbn [negb orb].
  - change (mkMail (email u) "taskReminder" (_id (doc task))) with (jobMail task u).
    destruct (transport ml (jobMail task u)); unfold push_outbox, push_all.
    + destruct (save _ _ _) as [[[]|e] w']; reflexivity.
    + reflexivity.
  - rewrite push_all_nil.
    destruct (save _ _ _) as [[[]|e] w']; reflexivity.
Qed.

Lemma job_mails_of_In ml task s :
  In s (job_mails_of ml task) ->
  mail_id s = _id (doc task)
  /\ exists u, owner task = Some u /\ reachable u = true
       /\ s = mkSent (jobMail task u) (transport ml (jobMail task u)).
Proof.
  unfold job_mails_of. destruct (owner task) as [u|]; [|intros []].
  destruct (reachable u) eqn:E; [|intros []].
  intros [<-|[]]. split; [reflexivity|]. eauto.
Qed.

Lemma job_mails_of_own ml task s :
  In s (job_mails_of ml task) -> mail_id s = _id (doc task).
Proof. intros Hs. by apply job_mails_of_In in Hs as [? _]. Qed.

Lemma job_mails_of_single ml task : NoDup (map mail_id (job_mails_of ml task)).
Proof.
  unfold job_mails_of. destruct (owner task) as [u|]; [|apply NoDup_nil_2].
  destruct (reachable u); [apply NoDup_singleton | apply NoDup_nil_2].
Qed.

Lemma job_dueFilter_true now t :
  ReminderJob.dueFilter now t = true <->
  enabled (reminder t) = Some true
  /\ notified (reminder t) = Some false
  /\ (exists d, reminderDate (reminder t) = Some d /\ d <= now)
  /\ status t <> completed
  /\ isArchived t = false.
Proof.
  unfold ReminderJob.dueFilter, lte_date.
  rewrite !andb_true_iff, !holds_true, Bool.eqb_true_iff, negb_true_iff,
    bool_decide_eq_false.
  destruct (reminderDate (reminder t)) as [d|].
  - rewrite Z.leb_le. split.
    + intros ((((He & Hn) & Hd) & Hs) & Ha). repeat split; eauto.
    + intros (He & Hn & (d' & Ed & Hd) & Hs & Ha).
      assert (d' = d) as -> by congruence. repeat split; assumption.
  - split.
    + intros ((((_ & _) & Hd) & _) & _). discriminate.
    + intros (_ & _ & (d' & Ed & _) & _). discriminate.
Qed.

Lemma checkReminders_run ml w :
  ReminderJob.checkReminders ml w
  = (Normal tt, if available w
                then run_all (ReminderJob.remind ml) (job_due (clock w) w) (drop_fault w)
                else drop_fault w).
Proof.
  unfold ReminderJob.checkReminders, try_catch, bind, new_Date,
    Task_find_populate, ret.
  destruct (available w) eqn:Ha.
  - rewrite store_op_available by exact Ha.
    unfold job_due, matching, all_tasks, populate.
    rewrite drop_fault_tasks, drop_fault_users.
    rewrite (forEach_run _ _ _ (job_remind_effect ml)). reflexivity.
  - rewrite store_op_unavailable by exact Ha. reflexivity.
Qed.

Lemma job_cycle_eq ml now w :
  faults w = [] ->
  job_cycle ml now w = run_all (ReminderJob.remind ml) (job_due now w) (set_clock now w).
Proof.
  intros Hf. unfold job_cycle. rewrite checkReminders_run.
  assert (faults (set_clock now w) = []) as Hf' by exact Hf.
  rewrite (nil_available _ Hf'), (drop_fault_nil _ Hf'). reflexivity.
Qed.

Lemma job_cycle_outbox ml now w :
  faults w = [] ->
  outbox (job_cycle ml now w) = outbox w ++ flat_map (job_mails_of ml) (job_due now w).
Proof.
  intros Hf. rewrite (job_cycle_eq ml now w Hf).
  rewrite (run_all_outbox _ _ _ (job_remind_effect ml)). reflexivity.
Qed.

Lemma job_cycle_marks ml now w task :
  faults w = [] -> In task (job_due now w) -> job_saves ml task = true ->
  flagged (job_cycle ml now w) (_id (doc task)).
Proof.
  intros Hf Hin Ho. rewrite (job_cycle_eq ml now w Hf).
  apply (run_all_marks _ _ _ (job_remind_effect ml)); auto.
  destruct (populated_In _ _ _ Hin) as (Hl & _). cbn. eauto.
Qed.

Lemma job_cycle_flagged ml now w i : flagged w i -> flagged (job_cycle ml now w) i.
Proof.
  intros Hfl. unfold job_cycle. rewrite checkReminders_run. cbn [snd].
  assert (flagged (drop_fault (set_clock now w)) i) as Hfl'.
  { unfold flagged. rewrite drop_fault_tasks. exact Hfl. }
  destruct (available (set_clock now w)); [|exact Hfl'].
  by apply (run_all_flagged _ _ _ (job_remind_effect ml)).
Qed.

Lemma job_cycle_only_raises ml now w :
  only_raises (tasks w) (tasks (job_cycle ml now w)).
Proof.
  unfold job_cycle. rewrite checkReminders_run. cbn [snd].
  assert (tasks (drop_fault (set_clock now w)) = tasks w) as E
    by (rewrite drop_fault_tasks; reflexivity).
  destruct (available (set_clock now w)).
  - rewrite <- E at 1. apply (run_all_only_raises _ _ _ (job_remind_effect ml)).
  - rewrite E. apply only_raises_refl.
Qed.

Lemma job_cycles_flagged sched w i : flagged w i -> flagged (job_cycles sched w) i.
Proof.
  revert w. induction sched as [|[ml now] rest IH]; intros w Hfl; [exact Hfl|].
  cbn. by apply IH, job_cycle_flagged.
Qed.

Lemma job_cycle_mail ml now w :
  faults w = [] ->
  outbox (job_cycle ml now w) = outbox w ++ flat_map (job_mails_of ml) (job_due now w)
  /\ faults (job_cycle ml now w) = []
  /\ NoDup (map mail_id (flat_map (job_mails_of ml) (job_due now w)))
  /\ (forall s, In s (flat_map (job_mails_of ml) (job_due now w)) ->
        unflagged w (mail_id s)
        /\ (sent_ok s = true -> flagged (job_cycle ml now w) (mail_id s))).
Proof.
  intros Hf. split; [by apply job_cycle_outbox|].
  split.
  { rewrite (job_cycle_eq ml now w Hf).
    by apply (run_all_frame _ _ _ (job_remind_effect ml) (job_due now w)
                (set_clock now w)). }
  split.
  { apply (mails_NoDup _ (job_mails_of_own ml) (job_mails_of_single ml)),
      populated_NoDup. }
  intros s Hs. apply mails_In in Hs as (task & Htask & Hs).
  apply job_mails_of_In in Hs as (Eid & u & Ho & Hr & Es). rewrite Eid.
  destruct (populated_In _ _ _ Htask) as (Hl & Hd & _).
  apply job_dueFilter_true in Hd as (_ & Hn & _).
  split; [by exists (fields (doc task))|].
  intros Hok. apply job_cycle_marks; auto.
  rewrite Es in Hok. cbn in Hok.
  unfold job_saves. rewrite Ho, Hok.
  apply andb_true_iff in Hr as [-> _]. by rewrite orb_true_r.
Qed.

(** The job delivers at most once: over any schedule of its cycles, with
    the store up, the successful calls of the mailer name pairwise different
    tasks, each unflagged before and flagged after; a failed call leaves the
    task to the next cycle. *)
Lemma job_delivers_at_most_once (sched : list (Mailer * Instant)) (w : World) :
  faults w = [] ->
  exists new,
    outbox (job_cycles sched w) = outbox w ++ new
    /\ NoDup (map mail_id (List.filter sent_ok new))
    /\ (forall s, In s new -> sent_ok s = true ->
          unflagged w (mail_id s) /\ flagged (job_cycles sched w) (mail_id s)).
Proof.
  revert w. induction sched as [|[ml now] rest IH]; intros w Hf.
  - exists []. cbn. rewrite app_nil_r.
    split; [reflexivity|]. split; [apply NoDup_nil_2|intros s0 []].
  - cbn [job_cycles].
    destruct (job_cycle_mail ml now w Hf) as (Ho & Hf1 & Hnd1 & Hm1).
    destruct (IH _ Hf1) as (new & Ho' & Hnd & Hm).
    exists (flat_map (job_mails_of ml) (job_due now w) ++ new).
    split; [rewrite Ho', Ho, app_assoc; reflexivity|].
    split.
    + rewrite List.filter_app, map_app. apply NoDup_app. repeat split.
      * by apply NoDup_map_filter.
      * intros i Hi Hi'.
        apply list_elem_of_In, in_map_iff in Hi as (s & Es & Hs).
        apply list_elem_of_In, in_map_iff in Hi' as (s' & Es' & Hs').
        apply filter_In in Hs as [Hs Hk]. apply filter_In in Hs' as [Hs' Hk'].
        destruct (Hm1 s Hs) as [_ Hfl]. destruct (Hm s' Hs' Hk') as [Hun _].
        specialize (Hfl Hk). rewrite Es in Hfl. rewrite Es' in Hun.
        exact (unflagged_not_flagged _ _ Hun Hfl).
      * exact Hnd.
    + intros s Hs Hk. apply in_app_or in Hs as [Hs|Hs].
      * destruct (Hm1 s Hs) as [Hun Hfl]. split; [exact Hun|].
        by apply job_cycles_flagged, Hfl.
      * destruct (Hm s Hs Hk) as [Hun Hfl]. split; [|exact Hfl].
        eapply unflagged_back; [apply (job_cycle_only_raises ml now w)|exact Hun].
Qed.


(** * The claims *)

(** ** Marking a reminder as sent *)

(** C1, as stated, fails.  A scan at instant 2000 captures task 10 with
    [reminderDate = 1000]; before its dispatch completes the reminder is
    rescheduled to 9000; the dispatch then saves the flag all the same: the
    store ends with [reminderDate = 9000] and [notified = true], although
    the stored date no longer equals the captured one. *)
Lemma mark_ignores_captured_date :
  In report_doc (due 2000 office)
  /\ reminderDate (reminder (fields (doc report_doc))) = Some 1000
  /\ (let edited := snd (ReminderService.scheduleReminder 10 9000 office) in
      let final := snd (ReminderService.remind smtp_up report_doc edited) in
      reminder <$> tasks edited !! 10%positive
        = Some (mkReminder (Some true) (Some 9000) (Some false))
      /\ reminder <$> tasks final !! 10%positive
        = Some (mkReminder (Some true) (Some 9000) (Some true))).
Proof. vm_compute. auto. Qed.

(** C1, amended.  Marking is an unconditional write by [_id]: whenever
    the store is up and still holds a document under the captured [_id],
    the save of the flag succeeds and leaves [notified = true] there, with
    the stored [enabled] and [reminderDate] as they are, whatever the stored
    date and flag were; the dispatch of the service does exactly this save
    for a task whose owner exists.  Nothing is compared and no "applied"
    result comes back. *)
Theorem mark_is_unconditional_write (ml : Mailer) (d : Document) (u : User)
    (stored : Task) (w : World) :
  tasks w !! _id d = Some stored ->
  available w = true ->
  let t' := marked (clock w) d stored in
  (exists w', save (assign_notified true d) [P_notified] w = (Normal tt, w')
              /\ tasks w' !! _id d = Some t')
  /\ tasks (snd (ReminderService.remind ml (mkPopulated d (Some u)) w)) !! _id d = Some t'
  /\ notified (reminder t') = Some true
  /\ reminderDate (reminder t') = reminderDate (reminder stored)
  /\ enabled (reminder t') = enabled (reminder stored).
Proof.
  intros Hs Ha t'. split; [|split; [|done]].
  - rewrite (save_notified_spec d w stored Hs Ha).
    eexists. split; [reflexivity|]. cbn. apply lookup_insert_eq.
  - rewrite remind_effect. cbn [snd].
    pose proof (step_cases (mails_of ml) has_owner (mkPopulated d (Some u)) w) as H.
    cbv zeta in H. destruct H as (_ & _ & _ & _ & _ & Hok).
    rewrite (Hok stored eq_refl Ha Hs). apply lookup_insert_eq.
Qed.

Lemma mark_is_unconditional_write_witness :
  tasks office !! 10%positive = Some (task_of 1 "report" (armed 1000))
  /\ available office = true
  /\ notified (reminder (marked (clock office) (doc report_doc)
                                (task_of 1 "report" (armed 1000)))) = Some true.
Proof.
  split; [reflexivity|]. split; [reflexivity|].
  apply (mark_is_unconditional_write smtp_up (doc report_doc) alice
           (task_of 1 "report" (armed 1000)) office); reflexivity.
Defined.

(** ** At most one notification per armed reminder *)



(** The mail goes out before the flag is saved, so the hypothesis on the
    store is needed: in [solo] the store answers the first scan and rejects
    the save that follows; the task stays unflagged and the second cycle
    mails it again. *)
Remark rejected_save_repeats_mail :
  map mail_id (outbox (cycles [(smtp_up, 2000); (smtp_up, 3000)] solo))
  = [10%positive; 10%positive]
  /\ reminder <$> tasks (cycle smtp_up 2000 solo) !! 10%positive
     = Some (armed 1000).
Proof. split; vm_compute; reflexivity. Qed.

(** ** Delivery failure *)

(** C3 fails on the service: its mailer reports a failed delivery as a
    result with [success: false] instead of throwing, and the dispatch does
    not look at the result.  For a due task whose owner has the channel on
    and whose mail does not get out, the dispatch of the service logs the
    failed call and saves [notified = true]; the dispatch of the job, given
    the same task and a transport that fails, logs the failed call and
    leaves the collection as it is. *)
Theorem failed_delivery_is_marked_sent (ml : Mailer) (task : Populated) (u : User)
    (stored : Task) (w : World) :
  owner task = Some u ->
  reachable u = true ->
  delivers ml (reminderMail task u) = false ->
  transport ml (jobMail task u) = false ->
  tasks w !! _id (doc task) = Some stored ->
  available w = true ->
  (let w' := snd (ReminderService.remind ml task w) in
   outbox w' = outbox w ++ [mkSent (reminderMail task u) false]
   /\ tasks w' !! _id (doc task) = Some (marked (clock w) (doc task) stored)
   /\ flagged w' (_id (doc task)))
  /\ (let w' := snd (ReminderJob.remind ml task w) in
      outbox w' = outbox w ++ [mkSent (jobMail task u) false]
      /\ tasks w' = tasks w).
Proof.
  intros Ho Hr Hd Ht Hs Ha.
  apply andb_true_iff in Hr as [He Hp].
  assert (is_not_false (preferences_notifications_email u) = true) as Hnf.
  { destruct (preferences_notifications_email u) as [[]|]; done. }
  split; cbv zeta.
  - rewrite remind_effect. cbn [snd].
    pose proof (step_cases (mails_of ml) has_owner task w) as H.
    cbv zeta in H. destruct H as (Hout & _ & _ & _ & _ & Hok).
    assert (has_owner task = true) as Hown by (unfold has_owner; by rewrite Ho).
    specialize (Hok stored Hown Ha Hs).
    assert (mails_of ml task = [mkSent (reminderMail task u) false]) as Em.
    { unfold mails_of. by rewrite Ho, Hnf, Hd. }
    rewrite Hout, Em, Hok. split; [done|].
    rewrite lookup_insert_eq. split; [done|].
    eexists. rewrite Hok, lookup_insert_eq. done.
  - rewrite job_remind_effect. cbn [snd].
    unfold dispatch_effect, job_saves, job_mails_of, reachable.
    rewrite Ho, He, Hp, Ht. cbn. done.
Qed.

Lemma failed_delivery_is_marked_sent_witness :
  flagged (snd (ReminderService.remind smtp_down report_doc office)) 10
  /\ tasks (snd (ReminderJob.remind smtp_down report_doc office)) = tasks office.
Proof.
  destruct (failed_delivery_is_marked_sent smtp_down report_doc alice
              (task_of 1 "report" (armed 1000)) office)
    as [(_ & _ & H1) (_ & H2)]; try reflexivity.
  split; [exact H1 | exact H2].
Defined.

(** ** A channel that is switched off *)




(** ** The lookahead of the scan *)

(** C6, as stated, fails: a cycle at instant 700 calls the mailer for
    task 10, whose reminder is set for instant 1000. *)
Lemma fires_before_reminderDate :
  reminderDate (reminder (task_of 1 "report" (armed 1000))) = Some 1000
  /\ 700 < 1000
  /\ outbox (cycle smtp_up 700 office)
     = [mkSent (mkMail "alice@example.org" "task-reminder" 10) true].
Proof. split; [reflexivity|]. split; [reflexivity|]. vm_compute. reflexivity. Qed.

(** C6, amended.  A reminder fires at most five minutes early: every call
    of the mailer that a cycle at instant [now] adds is about a stored task
    whose [reminderDate] is at most [now + 5 * 60 * 1000]; within that
    window the call is made at once, before [reminderDate] is reached. *)
Theorem fires_at_most_five_minutes_early (ml : Mailer) (now : Instant) (w : World)
    (s : Sent) :
  In s (outbox (cycle ml now w)) ->
  In s (outbox w)
  \/ exists t d, tasks w !! mail_id s = Some t
       /\ reminderDate (reminder t) = Some d
       /\ d <= now + 5 * 60 * 1000.
Proof.
  rewrite cycle_outbox_any. intros Hs. apply in_app_or in Hs as [Hs|Hs]; [by left|].
  right. destruct (available w); [|destruct Hs].
  apply mails_In in Hs as (task & Htask & Hs).
  apply mails_of_own in Hs. rewrite Hs.
  destruct (populated_In _ _ _ Htask) as (Hl & Hd & _).
  apply dueFilter_true in Hd as (_ & _ & (d & Hd & Hle) & _).
  exists (fields (doc task)), d. done.
Qed.

Lemma fires_at_most_five_minutes_early_witness :
  exists t d, tasks office !! 10%positive = Some t
    /\ reminderDate (reminder t) = Some d
    /\ d <= 700 + 5 * 60 * 1000.
Proof.
  destruct (fires_at_most_five_minutes_early smtp_up 700 office
              (mkSent (mkMail "alice@example.org" "task-reminder" 10) true))
    as [H|H].
  - vm_compute. auto.
  - destruct H.
  - exact H.
Defined.

(** ** Isolation within a cycle *)



(** ** Editing a reminder that was sent *)

Lemma updateTask_run mode taskId uid body stored w :
  tasks w !! taskId = Some stored -> userId stored = uid -> available w = true ->
  TaskController.updateTask mode taskId uid body w
  = (Normal (TaskController.success_200
               (mkDocument taskId
                  (TaskController.apply_updates mode
                     (TaskController.delete_protected body) stored))),
     set_tasks (<[taskId := TaskController.apply_updates mode
                              (TaskController.delete_protected body) stored]> (tasks w))
               (drop_fault w)).
Proof.
  intros Hs Hu Ha.
  unfold TaskController.updateTask, TaskController.Task_findOneAndUpdate,
    try_catch, bind, ret.
  rewrite store_op_available by exact Ha.
  rewrite drop_fault_tasks, Hs. rewrite bool_decide_true by exact Hu. reflexivity.
Qed.

Lemma scheduleReminder_run taskId date stored w :
  tasks w !! taskId = Some stored -> faults w = [] ->
  exists r t,
    ReminderService.scheduleReminder taskId date w
    = (Normal r, set_tasks (<[taskId := t]> (tasks w)) w)
    /\ ReminderService.success r = true
    /\ reminder t = mkReminder (Some true) (Some date) (Some false).
Proof.
  intros Hs Hf.
  unfold ReminderService.scheduleReminder, Task_findById, save, try_catch, bind, ret.
  rewrite !store_op_available by (by apply nil_available).
  rewrite (drop_fault_nil w Hf), Hs. cbn [fmap option_fmap option_map].
  rewrite store_op_available by (by apply nil_available).
  rewrite (drop_fault_nil w Hf). cbn [_id assign_notified assign_reminderDate
    assign_enabled assign]. rewrite Hs.
  eexists _, _. split; [reflexivity|]. split; reflexivity.
Qed.

(** C5 fails on [updateTask]: the controller hands the request body to
    [findOneAndUpdate] and nothing in it touches [notified].  For a task
    that was sent and an edit that moves [reminderDate], the stored flag
    after the edit is not [false] (it is still [true], or gone with the
    replaced sub-document), the scan filter rejects the task for every
    window, and no later cycle calls the mailer for it.  The sibling path
    [scheduleReminder], given the same task and date, does store
    [notified = false]. *)
Theorem edit_keeps_sent_flag (mode : TaskController.NestedSet) (taskId : TaskId)
    (uid : UserId) (body : TaskController.Updates) (p : TaskController.ReminderPatch)
    (d' : Instant) (stored : Task) (w : World) :
  tasks w !! taskId = Some stored ->
  userId stored = uid ->
  notified (reminder stored) = Some true ->
  TaskController.upd_reminder body = Some p ->
  TaskController.patch_reminderDate p = Some (Some d') ->
  faults w = [] ->
  (let w' := snd (TaskController.updateTask mode taskId uid body w) in
   (exists t', tasks w' !! taskId = Some t'
      /\ reminderDate (reminder t') = Some d'
      /\ notified (reminder t') <> Some false
      /\ forall bound, ReminderService.dueFilter bound t' = false)
   /\ forall ml now s, In s (outbox (cycle ml now w')) ->
        In s (outbox w') \/ mail_id s <> taskId)
  /\ (let w'' := snd (ReminderService.scheduleReminder taskId d' w) in
      exists t'', tasks w'' !! taskId = Some t''
        /\ reminder t'' = mkReminder (Some true) (Some d') (Some false)).
Proof.
  intros Hs Hu Hn Hb Hp Hf. cbv zeta.
  pose proof (nil_available w Hf) as Ha.
  rewrite (updateTask_run mode taskId uid body stored w Hs Hu Ha). cbn [snd].
  set (t' := TaskController.apply_updates mode (TaskController.delete_protected body) stored).
  assert (reminderDate (reminder t') = Some d'
          /\ notified (reminder t') <> Some false) as [Hd Hnot].
  { unfold t', TaskController.apply_updates, TaskController.delete_protected.
    cbn. rewrite Hb. unfold TaskController.set_nested.
    destruct mode; cbn; rewrite Hp; cbn; (split; [reflexivity|congruence]). }
  assert (forall bound, ReminderService.dueFilter bound t' = false) as Hdue.
  { intros bound. apply not_true_is_false. intros Ht.
    apply dueFilter_true in Ht as (_ & Hfalse & _). done. }
  split; [split|].
  - exists t'. cbn. rewrite lookup_insert_eq. done.
  - intros ml now s Hin. rewrite cycle_outbox_any in Hin.
    apply in_app_or in Hin as [Hin|Hin]; [by left|]. right.
    destruct (available (set_tasks _ _)); [|destruct Hin].
    apply mails_In in Hin as (task & Htask & Hin).
    apply mails_of_own in Hin. rewrite Hin. intros E.
    destruct (populated_In _ _ _ Htask) as (Hl & Hfl & _).
    rewrite E in Hl. cbn in Hl. rewrite lookup_insert_eq in Hl.
    injection Hl as Hl. rewrite <- Hl, Hdue in Hfl. discriminate.
  - destruct (scheduleReminder_run taskId d' stored w Hs Hf) as (r & t & -> & _ & Hr).
    exists t. cbn. rewrite lookup_insert_eq. done.
Qed.

Lemma edit_keeps_sent_flag_witness :
  let sent := cycle smtp_up 2000 office in
  let body := TaskController.mkUpdates None None None None None None
                (Some (TaskController.mkReminderPatch (Some true) (Some (Some 9000))))
                None in
  flagged sent 10
  /\ (forall mode,
        let w' := snd (TaskController.updateTask mode 10 1 body sent) in
        exists t', tasks w' !! 10%positive = Some t'
          /\ reminderDate (reminder t') = Some 9000
          /\ notified (reminder t') <> Some false
          /\ forall bound, ReminderService.dueFilter bound t' = false).
Proof.
  cbv zeta. split; [eexists; split; vm_compute; reflexivity|].
  intros mode.
  refine (proj1 (proj1 (edit_keeps_sent_flag mode 10 1 _ _ 9000 _ _ _ _ _ _ _ _))).
  - vm_compute. reflexivity.
  - reflexivity.
  - reflexivity.
  - reflexivity.
  - reflexivity.
  - reflexivity.
Defined.

(** ** The summary *)

Lemma store_op_nil {A} (op : M A) w : faults w = [] -> store_op op w = op w.
Proof. unfold store_op. intros ->. reflexivity. Qed.

Lemma countDocuments_nil flt w :
  faults w = [] ->
  Task_countDocuments flt w = (Normal (Z.of_nat (length (matching flt w))), w).
Proof. intros Hf. unfold Task_countDocuments. by rewrite store_op_nil. Qed.

Lemma find_nil flt w :
  faults w = [] -> Task_find flt w = (Normal (matching flt w), w).
Proof. intros Hf. unfold Task_find. by rewrite store_op_nil. Qed.

Lemma generateUserSummary_run tz binding uid w :
  faults w = [] ->
  exists s, ReminderService.generateUserSummary tz binding uid w = (Normal s, w)
    /\ ReminderService.overdueTasks s
       = Z.of_nat (length (matching
           (ReminderService.owned uid
              (ReminderService.overdueFilter (overdueBound tz binding (clock w)))) w))
    /\ ReminderService.summary_completionRate s
       = completionRate (ReminderService.completedTasks s) (ReminderService.totalTasks s).
Proof.
  intros Hf.
  unfold ReminderService.generateUserSummary, try_catch, bind, new_Date, ret.
  rewrite !(countDocuments_nil _ w Hf), (find_nil _ w Hf).
  eexists. split; [reflexivity|]. split; [|reflexivity].
  cbn [ReminderService.overdueTasks]. unfold overdueBound. by destruct binding.
Qed.






(** ** The completion rate *)

Lemma rates_within_half_spec n c t :
  rates_within_half n = true ->
  (1 <= t <= n)%nat -> (c <= t)%nat ->
  within_half (Z.of_nat c) (Z.of_nat t) = true.
Proof.
  unfold rates_within_half. intros H Ht Hc.
  rewrite forallb_forall in H. specialize (H t).
  rewrite forallb_forall in H. apply H; apply in_seq; lia.
Qed.

(** C9, as stated, fails: for 23 completed tasks out of 40 the exact
    rate is 57.5, which rounds to 58; the summary computes the quotient
    first, [(23 / 40) * 100] is 57.49999999999999 in binary64, and reports
    57. *)
Lemma completionRate_23_of_40 :
  completionRate 23 40 = 57 /\ spec_completionRate 23 40 = 58.
Proof. split; vm_compute; reflexivity. Qed.

(** C9, amended.  The rate is [Math.round((completed / total) * 100)]
    evaluated in binary64, the quotient first.  It is 0 for an empty total,
    whatever the other count, and no division is made; 3 of 10 gives 30;
    for totals up to 256 it is within one half of [100 * completed / total],
    so that only an exact tie can come out rounded down, as 23 of 40 does;
    and it is the value that [generateUserSummary] reports. *)
Theorem completionRate_rounds_the_double_quotient (completed total : Z) :
  0 <= completed <= total ->
  0 < total <= 256 ->
  2 * Z.abs (completionRate completed total * total - 100 * completed) <= total
  /\ (forall other, completionRate other 0 = 0)
  /\ completionRate 3 10 = 30
  /\ (forall tz binding uid w, faults w = [] ->
        exists s, ReminderService.generateUserSummary tz binding uid w = (Normal s, w)
          /\ ReminderService.summary_completionRate s
             = completionRate (ReminderService.completedTasks s)
                              (ReminderService.totalTasks s)).
Proof.
  intros Hc Ht.
  split; [|split; [intros other; reflexivity|split; [vm_compute; reflexivity|]]].
  - apply Z.leb_le.
    assert (rates_within_half 256 = true) as H by (vm_compute; reflexivity).
    pose proof (rates_within_half_spec 256 (Z.to_nat completed) (Z.to_nat total) H)
      as Hw.
    rewrite !Z2Nat.id in Hw by lia. apply Hw; lia.
  - intros tz binding uid w Hf.
    destruct (generateUserSummary_run tz binding uid w Hf) as (s & Hrun & _ & Hrate).
    eauto.
Qed.

Lemma completionRate_rounds_the_double_quotient_witness :
  0 <= 3 <= 10 /\ 0 < 10 <= 256
  /\ 2 * Z.abs (completionRate 3 10 * 10 - 100 * 3) <= 10.
Proof.
  split; [lia|]. split; [lia|].
  apply (completionRate_rounds_the_double_quotient 3 10); lia.
Defined.

(** ** scheduleReminder and cancelReminder *)

(** C10.  Neither function throws: for every task id, date and world,
    store outages included, each returns a result; the result has
    [success = true] with the success message, or [success = false] with
    the failure message and the message of the error that was caught.  A
    task id that matches no task gives the failed result with error "Task
    not found", and an outage of the store gives a failed result too. *)
Theorem reminder_calls_never_throw (taskId : TaskId) (date : Instant) (w : World) :
  (exists r w',
      ReminderService.scheduleReminder taskId date w = (Normal r, w')
      /\ (ReminderService.success r = true
          /\ ReminderService.message r = "Reminder scheduled successfully"
          \/ ReminderService.success r = false
             /\ ReminderService.message r = "Failed to schedule reminder"
             /\ is_Some (ReminderService.error r))
      /\ (available w = false -> ReminderService.success r = false)
      /\ (available w = true -> tasks w !! taskId = None ->
          ReminderService.success r = false
          /\ ReminderService.error r = Some "Task not found"))
  /\ (exists r w',
        ReminderService.cancelReminder taskId w = (Normal r, w')
        /\ (ReminderService.success r = true
            /\ ReminderService.message r = "Reminder cancelled successfully"
            \/ ReminderService.success r = false
               /\ ReminderService.message r = "Failed to cancel reminder"
               /\ is_Some (ReminderService.error r))
        /\ (available w = false -> ReminderService.success r = false)
        /\ (available w = true -> tasks w !! taskId = None ->
            ReminderService.success r = false
            /\ ReminderService.error r = Some "Task not found")).
Proof.
  split.
  - unfold ReminderService.scheduleReminder, Task_findById, try_catch, bind, ret, throw.
    destruct (available w) eqn:Ha.
    + rewrite store_op_available by exact Ha. rewrite drop_fault_tasks.
      destruct (tasks w !! taskId) as [stored|] eqn:Hs; cbn [fmap option_fmap option_map].
      * destruct (save _ _ _) as [[[]|e] w'].
        -- eexists _, _. split; [reflexivity|]. cbn.
           split; [by left|]. split; intros; discriminate.
        -- eexists _, _. split; [reflexivity|]. cbn.
           split; [right; eauto|]. split; intros; discriminate.
      * eexists _, _. split; [reflexivity|]. cbn.
        split; [right; eauto|]. split; [intros; discriminate|]. done.
    + rewrite store_op_unavailable by exact Ha.
      eexists _, _. split; [reflexivity|]. cbn.
      split; [right; eauto|]. split; [done|intros; discriminate].
  - unfold ReminderService.cancelReminder, Task_findById, try_catch, bind, ret, throw.
    destruct (available w) eqn:Ha.
    + rewrite store_op_available by exact Ha. rewrite drop_fault_tasks.
      destruct (tasks w !! taskId) as [stored|] eqn:Hs; cbn [fmap option_fmap option_map].
      * destruct (save _ _ _) as [[[]|e] w'].
        -- eexists _, _. split; [reflexivity|]. cbn.
           split; [by left|]. split; intros; discriminate.
        -- eexists _, _. split; [reflexivity|]. cbn.
           split; [right; eauto|]. split; intros; discriminate.
      * eexists _, _. split; [reflexivity|]. cbn.
        split; [right; eauto|]. split; [intros; discriminate|]. done.
    + rewrite store_op_unavailable by exact Ha.
      eexists _, _. split; [reflexivity|]. cbn.
      split; [right; eauto|]. split; [done|intros; discriminate].
Qed.

Lemma reminder_calls_never_throw_witness :
  tasks office !! 99%positive = None
  /\ exists r w',
       ReminderService.scheduleReminder 99 5000 office = (Normal r, w')
       /\ ReminderService.success r = false
       /\ ReminderService.error r = Some "Task not found"%string.
Proof.
  split; [reflexivity|].
  destruct (reminder_calls_never_throw 99 5000 office)
    as [(r & w' & Hrun & _ & _ & Hmiss) _].
  exists r, w'. split; [exact Hrun|]. apply Hmiss; reflexivity.
Defined.

(** * Further properties of the reminder service *)

(** ** What the cycles may mail *)

Lemma cycles_only_raises sched w : only_raises (tasks w) (tasks (cycles sched w)).
Proof.
  revert w. induction sched as [|[ml now] rest IH]; intros w; [apply only_raises_refl|].
  cbn. eapply only_raises_trans; [apply cycle_only_raises|apply IH].
Qed.

Lemma dueFilter_back bound w w' i t' :
  only_raises (tasks w) (tasks w') ->
  tasks w' !! i = Some t' -> ReminderService.dueFilter bound t' = true ->
  tasks w !! i = Some t'.
Proof.
  intros Hr Ht' Hd. destruct (Hr i) as [E|(t & t2 & Ht & Ht2 & R)]; [congruence|].
  apply dueFilter_true in Hd as (_ & Hn & _).
  destruct R as [R _]. congruence.
Qed.

Lemma cycles_new_mail (sched : list (Mailer * Instant)) (w : World) :
  exists new,
    outbox (cycles sched w) = outbox w ++ new
    /\ forall s, In s new ->
         exists t ml now u,
           In (ml, now) sched
           /\ tasks w !! mail_id s = Some t
           /\ ReminderService.dueFilter (ReminderService.reminderWindow now) t = true
           /\ users w !! userId t = Some u
           /\ is_not_false (preferences_notifications_email u) = true.
Proof.
  revert w. induction sched as [|[ml now] rest IH]; intros w.
  - exists []. cbn. rewrite app_nil_r. split; [reflexivity|intros s0 []].
  - cbn [cycles]. destruct (IH (cycle ml now w)) as (new & Ho & Hnew).
    exists ((if available w then flat_map (mails_of ml) (due now w) else []) ++ new).
    split; [rewrite Ho, cycle_outbox_any, app_assoc; reflexivity|].
    intros s Hs. apply in_app_or in Hs as [Hs|Hs].
    + destruct (available w); [|destruct Hs].
      apply mails_In in Hs as (task & Htask & Hs).
      apply mails_of_In in Hs as (Eid & u & Hu & Hp & _).
      destruct (populated_In _ _ _ Htask) as (Hl & Hd & Ho').
      exists (fields (doc task)), ml, now, u. rewrite Eid.
      split; [by left|]. split; [exact Hl|]. split; [exact Hd|].
      split; [congruence|exact Hp].
    + destruct (Hnew s Hs) as (t & ml' & now' & u & Hin & Hl & Hd & Hu & Hp).
      exists t, ml', now', u. split; [by right|].
      split; [|split; [exact Hd|split; [|exact Hp]]].
      * eapply dueFilter_back; [apply cycle_only_raises|exact Hl|exact Hd].
      * unfold cycle in Hu. rewrite checkAndSendReminders_run in Hu. cbn [snd] in Hu.
        destruct (available (set_clock now w)).
        -- destruct (run_all_frame _ _ _ (remind_effect ml) (due (clock (set_clock now w))
             (set_clock now w)) (drop_fault (set_clock now w))) as (Eu & _).
           rewrite Eu, drop_fault_users in Hu. exact Hu.
        -- rewrite drop_fault_users in Hu. exact Hu.
Qed.

(** X1.  Store up or not, over any schedule of cycles, every call of the
    mailer that the cycles add is about a task that, as it was stored
    before the first cycle, is enabled, not yet notified, pending or in
    progress and not archived, whose date is within the five minute window
    of one of the cycles, and whose owner exists with the channel not
    switched off.  So no cycle ever mails a task that is disabled, already
    notified, completed, cancelled or archived. *)
Theorem cycles_mail_only_due_tasks (sched : list (Mailer * Instant)) (w : World)
    (s : Sent) :
  In s (outbox (cycles sched w)) ->
  In s (outbox w)
  \/ exists t d now u,
       In now (map snd sched)
       /\ tasks w !! mail_id s = Some t
       /\ enabled (reminder t) = Some true
       /\ notified (reminder t) = Some false
       /\ reminderDate (reminder t) = Some d /\ d <= now + 5 * 60 * 1000
       /\ (status t = pending \/ status t = in_progress)
       /\ isArchived t = false
       /\ users w !! userId t = Some u
       /\ preferences_notifications_email u <> Some false.
Proof.
  destruct (cycles_new_mail sched w) as (new & -> & Hnew).
  intros Hs. apply in_app_or in Hs as [Hs|Hs]; [by left|]. right.
  destruct (Hnew s Hs) as (t & ml & now & u & Hin & Hl & Hd & Hu & Hp).
  apply dueFilter_true in Hd as (He & Hn & (d & Hd & Hle) & Hst & Ha).
  exists t, d, now, u. split.
  { apply in_map_iff. by exists (ml, now). }
  repeat split; try assumption.
  intros E. rewrite E in Hp. discriminate.
Qed.

Lemma cycles_mail_only_due_tasks_witness :
  exists t d now u,
    In now (map snd [(smtp_up, 2000); (smtp_down, 3000)])
    /\ tasks office !! 10%positive = Some t
    /\ enabled (reminder t) = Some true
    /\ notified (reminder t) = Some false
    /\ reminderDate (reminder t) = Some d /\ d <= now + 5 * 60 * 1000
    /\ (status t = pending \/ status t = in_progress)
    /\ isArchived t = false
    /\ users office !! userId t = Some u
    /\ preferences_notifications_email u <> Some false.
Proof.
  destruct (cycles_mail_only_due_tasks [(smtp_up, 2000); (smtp_down, 3000)] office
              (mkSent (mkMail "alice@example.org" "task-reminder" 10) true))
    as [H|H].
  - vm_compute. auto.
  - destruct H.
  - exact H.
Defined.

(** ** scheduleReminder and cancelReminder *)

Lemma save_schedule_spec id date stored w :
  tasks w !! id = Some stored ->
  available w = true ->
  save (assign_notified false
          (assign_reminderDate (Some date) (assign_enabled true (mkDocument id stored))))
       [P_enabled; P_reminderDate; P_notified] w
  = (Normal tt,
     set_tasks (<[id := with_reminder (mkReminder (Some true) (Some date) (Some false))
                          (clock w) stored]> (tasks w))
               (drop_fault w)).
Proof.
  intros Hs Ha. unfold save. rewrite store_op_available by exact Ha.
  cbn [_id assign_notified assign_reminderDate assign_enabled assign].
  rewrite drop_fault_tasks, Hs, drop_fault_clock. reflexivity.
Qed.

Lemma save_cancel_spec id stored w :
  tasks w !! id = Some stored ->
  available w = true ->
  save (assign_reminderDate None
          (assign_notified false (assign_enabled false (mkDocument id stored))))
       [P_enabled; P_notified; P_reminderDate] w
  = (Normal tt,
     set_tasks (<[id := with_reminder (mkReminder (Some false) None (Some false))
                          (clock w) stored]> (tasks w))
               (drop_fault w)).
Proof.
  intros Hs Ha. unfold save. rewrite store_op_available by exact Ha.
  cbn [_id assign_notified assign_reminderDate assign_enabled assign].
  rewrite drop_fault_tasks, Hs, drop_fault_clock. reflexivity.
Qed.

Lemma save_unavailable d dirty w :
  available w = false -> save d dirty w = (Throw StoreUnavailable, drop_fault w).
Proof. intros Ha. unfold save. by rewrite store_op_unavailable. Qed.

Lemma same_but_faults_drop w : same_but_faults w (drop_fault w).
Proof.
  unfold same_but_faults.
  by rewrite drop_fault_tasks, drop_fault_users, drop_fault_clock, drop_fault_outbox.
Qed.

Lemma same_but_faults_trans w1 w2 w3 :
  same_but_faults w1 w2 -> same_but_faults w2 w3 -> same_but_faults w1 w3.
Proof. unfold same_but_faults. intuition congruence. Qed.

Lemma same_but_faults_refl w : same_but_faults w w.
Proof. unfold same_but_faults. done. Qed.

(** X2.  [scheduleReminder] either fails and leaves the world as it was
    (but for the entries of the outage script that it used), or succeeds,
    and then the stored task has the reminder [{enabled: true,
    reminderDate: date, notified: false}], [lastModified] set to the clock,
    [syncVersion] one higher, and every other field as before; no other
    task, no user and no mail is touched.  It fails exactly when the store
    rejects the lookup or the save, or holds no task under the id. *)
Theorem scheduleReminder_effect (taskId : TaskId) (date : Instant) (w : World) :
  exists r w',
    ReminderService.scheduleReminder taskId date w = (Normal r, w')
    /\ users w' = users w /\ outbox w' = outbox w /\ clock w' = clock w
    /\ (ReminderService.success r = false /\ tasks w' = tasks w
        /\ (available w = false \/ tasks w !! taskId = None
            \/ available (drop_fault w) = false)
        \/ ReminderService.success r = true
           /\ ReminderService.result_reminderDate r = Some date
           /\ available w = true /\ available (drop_fault w) = true
           /\ exists stored,
                tasks w !! taskId = Some stored
                /\ tasks w'
                   = <[taskId := with_reminder (mkReminder (Some true) (Some date) (Some false))
                                   (clock w) stored]> (tasks w)).
Proof.
  unfold ReminderService.scheduleReminder, Task_findById, try_catch, bind, ret, throw.
  destruct (available w) eqn:Ha.
  - rewrite store_op_available by exact Ha. rewrite drop_fault_tasks.
    destruct (tasks w !! taskId) as [stored|] eqn:Hs; cbn [fmap option_fmap option_map].
    + destruct (available (drop_fault w)) eqn:Ha2.
      * rewrite save_schedule_spec by (rewrite ?drop_fault_tasks; done).
        eexists _, _. split; [reflexivity|]. cbn.
        rewrite !drop_fault_users, !drop_fault_outbox, !drop_fault_clock, drop_fault_tasks.
        repeat split. right. repeat split. eauto.
      * rewrite save_unavailable by exact Ha2.
        eexists _, _. split; [reflexivity|]. cbn.
        rewrite !drop_fault_users, !drop_fault_outbox, !drop_fault_clock, !drop_fault_tasks.
        repeat split. left. repeat split. auto.
    + eexists _, _. split; [reflexivity|]. cbn.
      rewrite !drop_fault_users, !drop_fault_outbox, !drop_fault_clock, !drop_fault_tasks.
      repeat split. left. repeat split. auto.
  - rewrite store_op_unavailable by exact Ha.
    eexists _, _. split; [reflexivity|]. cbn.
    rewrite !drop_fault_users, !drop_fault_outbox, !drop_fault_clock, !drop_fault_tasks.
    repeat split. left. repeat split. auto.
Qed.

Lemma scheduleReminder_ok taskId date stored w :
  tasks w !! taskId = Some stored -> faults w = [] ->
  ReminderService.scheduleReminder taskId date w
  = (Normal (ReminderService.mkReminderResult true "Reminder scheduled successfully"
               (Some date) None),
     set_tasks (<[taskId := with_reminder (mkReminder (Some true) (Some date) (Some false))
                              (clock w) stored]> (tasks w)) w).
Proof.
  intros Hs Hf.
  unfold ReminderService.scheduleReminder, Task_findById, try_catch, bind, ret.
  rewrite store_op_nil by exact Hf. rewrite Hs. cbn [fmap option_fmap option_map].
  rewrite save_schedule_spec by (auto using nil_available).
  rewrite (drop_fault_nil w Hf). reflexivity.
Qed.

Lemma cancelReminder_ok taskId stored w :
  tasks w !! taskId = Some stored -> faults w = [] ->
  ReminderService.cancelReminder taskId w
  = (Normal (ReminderService.mkReminderResult true "Reminder cancelled successfully"
               None None),
     set_tasks (<[taskId := with_reminder (mkReminder (Some false) None (Some false))
                              (clock w) stored]> (tasks w)) w).
Proof.
  intros Hs Hf.
  unfold ReminderService.cancelReminder, Task_findById, try_catch, bind, ret.
  rewrite store_op_nil by exact Hf. rewrite Hs. cbn [fmap option_fmap option_map].
  rewrite save_cancel_spec by (auto using nil_available).
  rewrite (drop_fault_nil w Hf). reflexivity.
Qed.

(** No cycle mails a task that the scan filter rejects whatever the window. *)
Lemma never_due_never_mailed sched w id t s :
  tasks w !! id = Some t ->
  (forall bound, ReminderService.dueFilter bound t = false) ->
  In s (outbox (cycles sched w)) ->
  In s (outbox w) \/ mail_id s <> id.
Proof.
  intros Ht Hnever Hs.
  destruct (cycles_new_mail sched w) as (new & Ho & Hnew). rewrite Ho in Hs.
  apply in_app_or in Hs as [Hs|Hs]; [by left|]. right. intros E.
  destruct (Hnew s Hs) as (t' & ml & now & u & _ & Hl & Hd & _).
  rewrite E, Ht in Hl. injection Hl as <-. rewrite Hnever in Hd. discriminate.
Qed.

(** X3.  With the store up and the task there, [cancelReminder] succeeds
    and stores the reminder [{enabled: false, reminderDate: null, notified:
    false}], with the other fields of the task as [scheduleReminder] leaves
    them; from then on, over any schedule of cycles, the mailer is not
    called for the task. *)
Theorem cancelReminder_silences (taskId : TaskId) (stored : Task) (w : World) :
  tasks w !! taskId = Some stored ->
  faults w = [] ->
  exists r w',
    ReminderService.cancelReminder taskId w = (Normal r, w')
    /\ ReminderService.success r = true
    /\ tasks w' = <[taskId := with_reminder (mkReminder (Some false) None (Some false))
                               (clock w) stored]> (tasks w)
    /\ users w' = users w /\ outbox w' = outbox w
    /\ forall sched s, In s (outbox (cycles sched w')) ->
         In s (outbox w) \/ mail_id s <> taskId.
Proof.
  intros Hs Hf. rewrite (cancelReminder_ok taskId stored w Hs Hf).
  eexists _, _. split; [reflexivity|]. cbn.
  repeat split. intros sched s Hin.
  eapply (never_due_never_mailed sched _ taskId) in Hin; [exact Hin| |].
  - cbn. apply lookup_insert_eq.
  - intros bound. reflexivity.
Qed.

Lemma cancelReminder_silences_witness :
  exists r w',
    ReminderService.cancelReminder 10 office = (Normal r, w')
    /\ ReminderService.success r = true
    /\ forall sched s, In s (outbox (cycles sched w')) ->
         In s (outbox office) \/ mail_id s <> 10%positive.
Proof.
  destruct (cancelReminder_silences 10 (task_of 1 "report" (armed 1000)) office
              eq_refl eq_refl) as (r & w' & H1 & H2 & _ & _ & _ & H3).
  exists r, w'. auto.
Defined.

(** X4.  A reminder that was scheduled is delivered by the next cycle
    whose window reaches its date, however long the date has passed: with
    the store up, for a pending or in-progress task that is not archived
    and whose owner exists with the channel not switched off, the cycle
    calls the mailer for the task and saves [notified = true]; this holds
    also when the task had been notified before the scheduling. *)
Theorem scheduled_reminder_is_delivered (ml : Mailer) (taskId : TaskId)
    (date now : Instant) (stored : Task) (u : User) (w : World) :
  tasks w !! taskId = Some stored ->
  faults w = [] ->
  status stored = pending \/ status stored = in_progress ->
  isArchived stored = false ->
  users w !! userId stored = Some u ->
  preferences_notifications_email u <> Some false ->
  date <= now + 5 * 60 * 1000 ->
  let m := mkMail (email u) "task-reminder" taskId in
  let w1 := snd (ReminderService.scheduleReminder taskId date w) in
  In (mkSent m (delivers ml m)) (outbox (cycle ml now w1))
  /\ flagged (cycle ml now w1) taskId.
Proof.
  intros Hs Hf Hst Har Hu Hp Hd m w1.
  unfold w1. rewrite (scheduleReminder_ok taskId date stored w Hs Hf). cbn [snd].
  set (t1 := with_reminder (mkReminder (Some true) (Some date) (Some false)) (clock w) stored).
  set (w' := set_tasks (<[taskId := t1]> (tasks w)) w).
  assert (faults w' = []) as Hf' by exact Hf.
  set (task := mkPopulated (mkDocument taskId t1) (Some u)).
  assert (In task (due now w')) as Hin.
  { unfold due. apply in_map_iff. exists (mkDocument taskId t1). split.
    - unfold populate, task. cbn. by rewrite Hu.
    - apply matching_In. cbn. split; [apply lookup_insert_eq|].
      apply dueFilter_true. cbn. repeat split; eauto. }
  split.
  - rewrite (cycle_outbox ml now w' Hf'). apply in_or_app. right.
    apply in_flat_map. exists task. split; [exact Hin|].
    unfold mails_of. cbn.
    destruct (preferences_notifications_email u) as [[]|]; try done; by left.
  - apply (cycle_marks ml now w' task Hf' Hin). reflexivity.
Qed.

Lemma scheduled_reminder_is_delivered_witness :
  let w1 := snd (ReminderService.scheduleReminder 10 500 (cycle smtp_up 2000 office)) in
  flagged (cycle smtp_up 2000 office) 10
  /\ In (mkSent (mkMail "alice@example.org" "task-reminder" 10) true)
        (outbox (cycle smtp_up 9000 w1))
  /\ flagged (cycle smtp_up 9000 w1) 10.
Proof.
  cbv zeta. split; [eexists; split; vm_compute; reflexivity|].
  refine (scheduled_reminder_is_delivered smtp_up 10 500 9000 _ alice
            (cycle smtp_up 2000 office) _ _ _ _ _ _ _).
  - vm_compute. reflexivity.
  - reflexivity.
  - by left.
  - reflexivity.
  - reflexivity.
  - discriminate.
  - lia.
Defined.

(** X5.  [scheduleReminder] looks neither at the status nor at the
    archive flag: on a completed, cancelled or archived task it reports
    success and stores the reminder, but no cycle ever calls the mailer for
    the task. *)
Theorem scheduled_on_closed_task_never_fires (taskId : TaskId) (date : Instant)
    (stored : Task) (w : World) :
  tasks w !! taskId = Some stored ->
  faults w = [] ->
  status stored = completed \/ status stored = cancelled \/ isArchived stored = true ->
  exists r w',
    ReminderService.scheduleReminder taskId date w = (Normal r, w')
    /\ ReminderService.success r = true
    /\ (exists t, tasks w' !! taskId = Some t
          /\ reminder t = mkReminder (Some true) (Some date) (Some false))
    /\ forall sched s, In s (outbox (cycles sched w')) ->
         In s (outbox w) \/ mail_id s <> taskId.
Proof.
  intros Hs Hf Hclosed. rewrite (scheduleReminder_ok taskId date stored w Hs Hf).
  eexists _, _. split; [reflexivity|]. cbn. split; [reflexivity|]. split.
  - eexists. rewrite lookup_insert_eq. split; reflexivity.
  - intros sched s Hin.
    eapply (never_due_never_mailed sched _ taskId) in Hin; [exact Hin| |].
    + cbn. apply lookup_insert_eq.
    + intros bound. apply not_true_is_false. intros Hd.
      apply dueFilter_true in Hd as (_ & _ & _ & Hst & Har). cbn in Hst, Har.
      destruct Hclosed as [E|[E|E]]; rewrite E in *; destruct Hst; discriminate.
Qed.

Lemma scheduled_on_closed_task_never_fires_witness :
  exists r w',
    ReminderService.scheduleReminder 30 5000 week = (Normal r, w')
    /\ ReminderService.success r = true
    /\ (exists t, tasks w' !! 30%positive = Some t
          /\ reminder t = mkReminder (Some true) (Some 5000) (Some false))
    /\ forall sched s, In s (outbox (cycles sched w')) ->
         In s (outbox week) \/ mail_id s <> 30%positive.
Proof.
  apply (scheduled_on_closed_task_never_fires 30 5000
           (mkTask 1 "slides" completed medium (Some noon) (armed 1000) false 0 1) week).
  - reflexivity.
  - reflexivity.
  - left. reflexivity.
Defined.

(** ** The summary and the statistics *)

Lemma outage_step n w :
  outage_within (S n) w = negb (available w) || outage_within n (drop_fault w).
Proof.
  unfold outage_within, available, drop_fault.
  destruct (faults w) as [|[] fs] eqn:E; cbn; rewrite ?E; try reflexivity.
  destruct n; reflexivity.
Qed.

Lemma same_but_faults_drops w w' :
  same_but_faults (drop_fault w) w' -> same_but_faults w w'.
Proof. intros H. eapply same_but_faults_trans; [apply same_but_faults_drop|exact H]. Qed.

Lemma reads_ret {A} (a : A) : reads 0 (ret a).
Proof.
  intros w. exists (Normal a), w. split; [reflexivity|].
  split; [apply same_but_faults_refl|]. unfold outage_within. cbn. discriminate.
Qed.

Lemma reads_store {A B} (n : nat) (f : World -> A) (k : A -> M B) :
  (forall w w', same_but_faults w w' -> f w' = f w) ->
  (forall a, reads n (k a)) ->
  reads (S n) (a <- store_op (fun w => (Normal (f w), w)) ;; k a).
Proof.
  intros Hf Hk w. unfold bind. destruct (available w) eqn:Ha.
  - rewrite store_op_available by exact Ha.
    destruct (Hk (f (drop_fault w)) (drop_fault w)) as (c & w' & -> & Hs & Ho).
    exists c, w'. split; [reflexivity|]. split; [by apply same_but_faults_drops|].
    rewrite outage_step, Ha. cbn. exact Ho.
  - rewrite store_op_unavailable by exact Ha.
    exists (Throw StoreUnavailable), (drop_fault w). split; [reflexivity|].
    split; [apply same_but_faults_drop|]. eauto.
Qed.

Lemma matching_same flt w w' : same_but_faults w w' -> matching flt w' = matching flt w.
Proof. intros (Et & _). unfold matching, all_tasks. by rewrite Et. Qed.

Lemma reads_count {B} (n : nat) flt (k : Z -> M B) :
  (forall a, reads n (k a)) ->
  reads (S n) (a <- Task_countDocuments flt ;; k a).
Proof.
  intros Hk. unfold Task_countDocuments.
  apply (reads_store n (fun w => Z.of_nat (length (matching flt w)))); [|exact Hk].
  intros w w' Hs. by rewrite (matching_same flt w w' Hs).
Qed.

Lemma reads_find {B} (n : nat) flt (k : list Document -> M B) :
  (forall a, reads n (k a)) ->
  reads (S n) (a <- Task_find flt ;; k a).
Proof.
  intros Hk. unfold Task_find.
  apply (reads_store n (fun w => matching flt w)); [|exact Hk].
  intros w w' Hs. apply (matching_same flt w w' Hs).
Qed.

Lemma reads_new_Date {B} (n : nat) (k : Instant -> M B) :
  (forall now, reads n (k now)) -> reads n (now <- new_Date ;; k now).
Proof. intros Hk w. unfold bind, new_Date. apply Hk. Qed.

Lemma reads_catch {A} (n : nat) (m : M A) (fallback : A) w :
  reads n m ->
  exists a w',
    try_catch m (fun _ => ret fallback) w = (Normal a, w')
    /\ same_but_faults w w'
    /\ (outage_within n w = true -> a = fallback).
Proof.
  intros Hm. destruct (Hm w) as (c & w' & Hrun & Hs & Ho).
  unfold try_catch. rewrite Hrun. destruct c as [a|e].
  - exists a, w'. split; [reflexivity|]. split; [exact Hs|].
    intros H. destruct (Ho H) as (e & E). discriminate.
  - exists fallback, w'. split; [reflexivity|]. split; [exact Hs|]. done.
Qed.

(** X6.  [generateUserSummary] never throws and only reads: whatever the
    store does, it returns a summary and leaves the collections, the clock
    and the outbox as they are.  When the store rejects any of its seven
    queries, the summary is the one with every count at zero and no
    upcoming task. *)
Theorem generateUserSummary_degrades (tz : Z) (binding : ReminderService.DateBinding)
    (uid : UserId) (w : World) :
  exists s w',
    ReminderService.generateUserSummary tz binding uid w = (Normal s, w')
    /\ same_but_faults w w'
    /\ (outage_within 7 w = true -> s = ReminderService.emptySummary).
Proof.
  apply (reads_catch 7). apply reads_new_Date. intros today. cbv zeta.
  do 6 (apply reads_count; intros ?).
  apply reads_find. intros ?. apply reads_ret.
Qed.

Lemma generateUserSummary_degrades_witness :
  exists s w',
    ReminderService.generateUserSummary 0 ReminderService.by_value 1 week_outage
    = (Normal s, w')
    /\ same_but_faults week_outage w'
    /\ s = ReminderService.emptySummary.
Proof.
  destruct (generateUserSummary_degrades 0 ReminderService.by_value 1 week_outage)
    as (s & w' & Hrun & Hsame & Hs).
  exists s, w'. split; [exact Hrun|]. split; [exact Hsame|]. apply Hs. reflexivity.
Defined.

(** X7.  [getReminderStats] never throws and only reads; when the store
    rejects any of its four counts, every statistic is reported as zero. *)
Theorem getReminderStats_degrades (w : World) :
  exists s w',
    ReminderService.getReminderStats w = (Normal s, w')
    /\ same_but_faults w w'
    /\ (outage_within 4 w = true -> s = ReminderService.emptyStats).
Proof.
  apply (reads_catch 4). apply reads_new_Date. intros now.
  do 4 (apply reads_count; intros ?). apply reads_ret.
Qed.

Lemma getReminderStats_degrades_witness :
  exists s w',
    ReminderService.getReminderStats week_outage = (Normal s, w')
    /\ same_but_faults week_outage w'
    /\ s = ReminderService.emptyStats.
Proof.
  destruct (getReminderStats_degrades week_outage) as (s & w' & Hrun & Hsame & Hs).
  exists s, w'. split; [exact Hrun|]. split; [exact Hsame|]. apply Hs. reflexivity.
Defined.

Lemma length_filter_le {A} (p q : A -> bool) (l : list A) :
  (forall x, p x = true -> q x = true) ->
  (length (List.filter p l) <= length (List.filter q l))%nat.
Proof.
  intros Hpq. induction l as [|x l IH]; cbn; [lia|].
  destruct (p x) eqn:Hp.
  - rewrite (Hpq x Hp). cbn. lia.
  - destruct (q x); cbn; lia.
Qed.

Lemma length_filter_split {A} (p q r : A -> bool) (l : list A) :
  (forall x, p x = true -> r x = true) ->
  (forall x, q x = true -> r x = true) ->
  (forall x, p x = true -> q x = true -> False) ->
  (length (List.filter p l) + length (List.filter q l) <= length (List.filter r l))%nat.
Proof.
  intros Hp Hq Hpq. induction l as [|x l IH]; cbn; [lia|].
  destruct (p x) eqn:Ep; destruct (q x) eqn:Eq.
  - destruct (Hpq x Ep Eq).
  - rewrite (Hp x Ep). cbn. lia.
  - rewrite (Hq x Eq). cbn. lia.
  - destruct (r x); cbn; lia.
Qed.

Lemma length_filter_union {A} (p q r : A -> bool) (l : list A) :
  (forall x, r x = p x || q x) ->
  (forall x, p x && q x = false) ->
  (length (List.filter p l) + length (List.filter q l))%nat = length (List.filter r l).
Proof.
  intros Hr Hpq. induction l as [|x l IH]; [reflexivity|]. cbn.
  rewrite (Hr x). specialize (Hpq x).
  destruct (p x), (q x); cbn in *; try discriminate; lia.
Qed.

Lemma count_of_union uid p q r w :
  (forall t, r t = p t || q t) ->
  (forall t, p t && q t = false) ->
  count_of uid p w + count_of uid q w = count_of uid r w.
Proof.
  intros Hr Hpq. unfold count_of, matching. rewrite <- Nat2Z.inj_add. f_equal.
  apply length_filter_union; intros d; unfold ReminderService.owned.
  - rewrite (Hr (fields d)). by destruct (bool_decide _), (p _), (q _).
  - specialize (Hpq (fields d)). by destruct (bool_decide _), (p _), (q _).
Qed.

Lemma count_of_le uid p q w :
  (forall t, p t = true -> q t = true) -> count_of uid p w <= count_of uid q w.
Proof.
  intros Hpq. unfold count_of, matching. apply inj_le, length_filter_le.
  intros d. unfold ReminderService.owned. rewrite !andb_true_iff.
  intros [Hu Hp]. split; [exact Hu|by apply Hpq].
Qed.

Lemma generateUserSummary_counts tz binding uid w :
  faults w = [] ->
  ReminderService.generateUserSummary tz binding uid w
  = (Normal
       (ReminderService.mkSummary
          (count_of uid ReminderService.active w)
          (count_of uid (fun t => bool_decide (status t = completed)
                                  && ReminderService.active t) w)
          (count_of uid (fun t => bool_decide (status t = pending)
                                  && ReminderService.active t) w
           + count_of uid (fun t => bool_decide (status t = in_progress)
                                    && ReminderService.active t) w)
          (count_of uid (ReminderService.overdueFilter
                           (overdueBound tz binding (clock w))) w)
          (count_of uid (ReminderService.todayFilter
                           (ReminderService.setHours_0 tz (clock w))
                           (ReminderService.setHours_23_59_59_999 tz
                              (ReminderService.setHours_0 tz (clock w)))) w)
          (firstn 5 (ReminderService.sort_by_due
                       (matching (ReminderService.owned uid
                                    (ReminderService.upcomingFilter
                                       (ReminderService.addDays 1 (clock w))
                                       (ReminderService.addDays 7 (clock w)))) w)))
          (completionRate
             (count_of uid (fun t => bool_decide (status t = completed)
                                     && ReminderService.active t) w)
             (count_of uid ReminderService.active w))),
     w).
Proof.
  intros Hf.
  unfold ReminderService.generateUserSummary, try_catch, bind, new_Date, ret.
  rewrite !(countDocuments_nil _ w Hf), (find_nil _ w Hf).
  unfold count_of, overdueBound. by destruct binding.
Qed.

(** X8.  The counts of a summary fit together: the completed and the
    pending count (pending plus in progress) together do not exceed the
    total, the difference being the cancelled tasks; the overdue and the
    due-today count are each at most the pending count; and every count is
    non-negative. *)
Theorem summary_counts_fit (tz : Z) (binding : ReminderService.DateBinding)
    (uid : UserId) (w : World) :
  faults w = [] ->
  exists s,
    ReminderService.generateUserSummary tz binding uid w = (Normal s, w)
    /\ ReminderService.totalTasks s
       = ReminderService.completedTasks s + ReminderService.pendingTasks s
         + count_of uid (fun t => bool_decide (status t = cancelled)
                                  && ReminderService.active t) w
    /\ 0 <= ReminderService.overdueTasks s <= ReminderService.pendingTasks s
    /\ 0 <= ReminderService.todayTasks s <= ReminderService.pendingTasks s
    /\ 0 <= ReminderService.completedTasks s.
Proof.
  intros Hf. rewrite (generateUserSummary_counts tz binding uid w Hf).
  eexists. split; [reflexivity|]. cbn.
  set (P := fun t => bool_decide (status t = pending) && ReminderService.active t).
  set (I := fun t => bool_decide (status t = in_progress) && ReminderService.active t).
  set (C := fun t => bool_decide (status t = completed) && ReminderService.active t).
  set (X := fun t => bool_decide (status t = cancelled) && ReminderService.active t).
  set (PI := fun t => status_in [pending; in_progress] (status t) && ReminderService.active t).
  set (CPI := fun t => (bool_decide (status t = completed)
                          || status_in [pending; in_progress] (status t))
                         && ReminderService.active t).
  assert (count_of uid P w + count_of uid I w = count_of uid PI w) as Epi.
  { apply count_of_union; intros t; unfold P, I, PI, status_in; cbn;
      destruct (status t), (ReminderService.active t); reflexivity. }
  assert (count_of uid C w + count_of uid PI w = count_of uid CPI w) as Ecpi.
  { apply count_of_union; intros t; unfold C, PI, CPI, status_in; cbn;
      destruct (status t), (ReminderService.active t); reflexivity. }
  assert (count_of uid CPI w + count_of uid X w = count_of uid ReminderService.active w)
    as Etot.
  { apply count_of_union; intros t; unfold CPI, X, status_in; cbn;
      destruct (status t), (ReminderService.active t); reflexivity. }
  rewrite Epi. split; [lia|].
  assert (forall f, 0 <= count_of uid f w) as Hpos
    by (intros f; unfold count_of; lia).
  split; [|split]; try (split; [apply Hpos|]); try apply Hpos.
  - apply count_of_le. intros t. unfold ReminderService.overdueFilter, PI.
    rewrite !andb_true_iff. tauto.
  - apply count_of_le. intros t. unfold ReminderService.todayFilter, PI.
    rewrite !andb_true_iff. tauto.
Qed.

Lemma summary_counts_fit_witness :
  exists s,
    ReminderService.generateUserSummary 0 ReminderService.by_value 1 week = (Normal s, week)
    /\ ReminderService.totalTasks s
       = ReminderService.completedTasks s + ReminderService.pendingTasks s
         + count_of 1 (fun t => bool_decide (status t = cancelled)
                                && ReminderService.active t) week
    /\ 0 <= ReminderService.overdueTasks s <= ReminderService.pendingTasks s
    /\ 0 <= ReminderService.todayTasks s <= ReminderService.pendingTasks s
    /\ 0 <= ReminderService.completedTasks s.
Proof.
  apply (summary_counts_fit 0 ReminderService.by_value 1 week). reflexivity.
Defined.

(** ** Sorting by due date *)













(** ** The controller *)





Lemma findOneAndUpdate_run mode id uid u w :
  TaskController.Task_findOneAndUpdate mode id uid u w
  = if available w
    then match tasks w !! id with
         | Some t =>
             if bool_decide (userId t = uid)
             then (Normal (Some (mkDocument id (TaskController.apply_updates mode u t))),
                   set_tasks (<[id := TaskController.apply_updates mode u t]> (tasks w))
                             (drop_fault w))
             else (Normal None, drop_fault w)
         | None => (Normal None, drop_fault w)
         end
    else (Throw StoreUnavailable, drop_fault w).
Proof.
  unfold TaskController.Task_findOneAndUpdate, store_op, available, drop_fault.
  destruct (faults w) as [|[] fs]; try reflexivity.
Qed.

Lemma findOneAndDelete_run id uid w :
  TaskController.Task_findOneAndDelete id uid w
  = if available w
    then match tasks w !! id with
         | Some t =>
             if bool_decide (userId t = uid)
             then (Normal (Some (mkDocument id t)),
                   set_tasks (delete id (tasks w)) (drop_fault w))
             else (Normal None, drop_fault w)
         | None => (Normal None, drop_fault w)
         end
    else (Throw StoreUnavailable, drop_fault w).
Proof.
  unfold TaskController.Task_findOneAndDelete, store_op, available, drop_fault.
  destruct (faults w) as [|[] fs]; try reflexivity.
Qed.

Lemma findOne_populate_run id uid w :
  TaskController.Task_findOne_populate id uid w
  = if available w
    then match tasks w !! id with
         | Some t =>
             if bool_decide (userId t = uid)
             then (Normal (Some (TaskController.populate_name_email w (mkDocument id t))), drop_fault w)
             else (Normal None, drop_fault w)
         | None => (Normal None, drop_fault w)
         end
    else (Throw StoreUnavailable, drop_fault w).
Proof.
  unfold TaskController.Task_findOne_populate, store_op, available, drop_fault.
  destruct (faults w) as [|[] fs]; try reflexivity.
Qed.






Lemma set_tasks_same w : set_tasks (tasks w) w = w.
Proof. by destruct w. Qed.









Lemma scheduleReminder_missing id date w :
  faults w = [] -> tasks w !! id = None ->
  ReminderService.scheduleReminder id date w
  = (Normal (ReminderService.mkReminderResult false "Failed to schedule reminder" None
               (Some "Task not found")), w).
Proof.
  intros Hf Ht.
  unfold ReminderService.scheduleReminder, Task_findById, try_catch, bind, ret.
  rewrite store_op_nil by exact Hf. by rewrite Ht.
Qed.

Lemma missing_never_mailed sched w id s :
  tasks w !! id = None ->
  In s (outbox (cycles sched w)) ->
  In s (outbox w) \/ mail_id s <> id.
Proof.
  intros Ht Hs.
  destruct (cycles_new_mail sched w) as (new & Ho & Hnew). rewrite Ho in Hs.
  apply in_app_or in Hs as [Hs|Hs]; [by left|]. right. intros E.
  destruct (Hnew s Hs) as (t' & ml & now & u & _ & Hl & _).
  rewrite E, Ht in Hl. discriminate.
Qed.

(** X15.  With the store up, [deleteTask] on a task of the caller answers
    200 without data and removes the task, and only it.  From then on the
    task is gone for every part of the program: [getTaskById] answers 404,
    [scheduleReminder] fails with [Task not found], and no cycle of the
    reminder job sends a mail about it. *)
Theorem deleted_task_is_gone (uid : UserId) (id : TaskId) (t : Task) (w : World) :
  faults w = [] -> tasks w !! id = Some t -> userId t = uid ->
  let w' := set_tasks (delete id (tasks w)) w in
  TaskController.deleteTask id uid w
  = (Normal (Responses.mkReply 200 true "Task deleted successfully" None None (clock w)), w')
  /\ TaskController.getTaskById id uid w'
     = (Normal (Responses.mkReply 404 false "Task not found" None None (clock w)), w')
  /\ (forall date,
        ReminderService.scheduleReminder id date w'
        = (Normal (ReminderService.mkReminderResult false "Failed to schedule reminder"
                     None (Some "Task not found")), w'))
  /\ (forall sched s, In s (outbox (cycles sched w')) ->
        In s (outbox w) \/ mail_id s <> id).
Proof.
  intros Hf Ht Hu w'.
  assert (tasks w' !! id = None) as Hgone by (cbn; apply lookup_delete_eq).
  assert (faults w' = []) as Hf' by exact Hf.
  split; [|split; [|split]].
  - unfold TaskController.deleteTask, try_catch, bind.
    rewrite findOneAndDelete_run, (nil_available w Hf), (drop_fault_nil w Hf), Ht.
    by rewrite bool_decide_true.
  - unfold TaskController.getTaskById, try_catch, bind.
    rewrite findOne_populate_run, (nil_available w' Hf'), (drop_fault_nil w' Hf'), Hgone.
    reflexivity.
  - intros date. by apply scheduleReminder_missing.
  - intros sched s Hs. by apply (missing_never_mailed sched w' id s Hgone).
Qed.

Lemma deleted_task_is_gone_witness :
  TaskController.deleteTask 10 1 office
  = (Normal (Responses.mkReply 200 true "Task deleted successfully" None None (clock office)),
     set_tasks (delete 10%positive (tasks office)) office)
  /\ forall sched s,
       In s (outbox (cycles sched (set_tasks (delete 10%positive (tasks office)) office))) ->
       In s (outbox office) \/ mail_id s <> 10%positive.
Proof.
  destruct (deleted_task_is_gone 1 10 (task_of 1 "report" (armed 1000)) office)
    as (Hrun & _ & _ & Hsilent); [reflexivity|reflexivity|reflexivity|].
  split; [exact Hrun|exact Hsilent].
Defined.

Lemma archived_not_due bound t :
  isArchived t = true -> ReminderService.dueFilter bound t = false.
Proof.
  intros Ha. unfold ReminderService.dueFilter. rewrite Ha. cbn. by rewrite andb_false_r.
Qed.

Lemma archive_round_trip t :
  isArchived t = false ->
  TaskController.apply_updates TaskController.merge_fields
    (TaskController.archive_update false)
    (TaskController.apply_updates TaskController.merge_fields
       (TaskController.archive_update true) t) = t.
Proof. destruct t. cbn. by intros ->. Qed.

(** X16.  With the store up, [archiveTask] with [archive: true] on a task of
    the caller answers 200 with the task, now archived and otherwise as it
    was, and with the name and the address of its owner.  While it is
    archived no cycle of the reminder job sends a mail about it, whatever
    its reminder says; and unarchiving a task that was not archived before
    brings the store back to what it was. *)
Theorem archived_task_is_silent (uid : UserId) (id : TaskId) (t : Task) (w : World) :
  faults w = [] -> tasks w !! id = Some t -> userId t = uid ->
  let t' := mkTask (userId t) (title t) (status t) (priority t) (dueDate t) (reminder t)
                   true (lastModified t) (syncVersion t) in
  let w' := set_tasks (<[id := t']> (tasks w)) w in
  TaskController.archiveTask id uid true w
  = (Normal (Responses.mkReply 200 true "Task archived successfully"
               (Some (TaskController.populate_name_email w (mkDocument id t')))
               None (clock w)), w')
  /\ (forall sched s, In s (outbox (cycles sched w')) ->
        In s (outbox w) \/ mail_id s <> id)
  /\ (isArchived t = false ->
      TaskController.archiveTask id uid false w'
      = (Normal (Responses.mkReply 200 true "Task unarchived successfully"
                   (Some (TaskController.populate_name_email w (mkDocument id t)))
                   None (clock w)), w)).
Proof.
  intros Hf Ht Hu t' w'.
  assert (tasks w' !! id = Some t') as Ht' by (cbn; apply lookup_insert_eq).
  assert (faults w' = []) as Hf' by exact Hf.
  split; [|split].
  - unfold TaskController.archiveTask, TaskController.Task_findOneAndUpdate_populate,
      try_catch, bind.
    rewrite findOneAndUpdate_run, (nil_available w Hf), (drop_fault_nil w Hf), Ht.
    by rewrite bool_decide_true.
  - intros sched s Hs.
    apply (never_due_never_mailed sched w' id t' s Ht'); [|exact Hs].
    intros bound. by apply archived_not_due.
  - intros Harch.
    unfold TaskController.archiveTask, TaskController.Task_findOneAndUpdate_populate,
      try_catch, bind.
    rewrite findOneAndUpdate_run, (nil_available w' Hf'), (drop_fault_nil w' Hf'), Ht'.
    rewrite bool_decide_true by exact Hu.
    change t' with (TaskController.apply_updates TaskController.merge_fields
                      (TaskController.archive_update true) t).
    rewrite (archive_round_trip t Harch). unfold w', set_tasks. cbn.
    rewrite insert_insert_eq, (insert_id (tasks w) id t Ht).
    destruct w; reflexivity.
Qed.

Lemma archived_task_is_silent_witness :
  let t' := mkTask 1 "report" pending medium None (armed 1000) true 0 1 in
  let w' := set_tasks (<[10%positive := t']> (tasks office)) office in
  TaskController.archiveTask 10 1 true office
  = (Normal (Responses.mkReply 200 true "Task archived successfully"
               (Some (mkPopulated (mkDocument 10 t')
                                  (Some (mkUser "Alice" "alice@example.org" None))))
               None (clock office)), w')
  /\ (forall sched s, In s (outbox (cycles sched w')) ->
        In s (outbox office) \/ mail_id s <> 10%positive)
  /\ TaskController.archiveTask 10 1 false w'
     = (Normal (Responses.mkReply 200 true "Task unarchived successfully"
                  (Some (mkPopulated (mkDocument 10 (task_of 1 "report" (armed 1000)))
                                     (Some (mkUser "Alice" "alice@example.org" None))))
                  None (clock office)), office).
Proof.
  destruct (archived_task_is_silent 1 10 (task_of 1 "report" (armed 1000)) office)
    as (Hrun & Hsilent & Hback); [reflexivity|reflexivity|reflexivity|].
  split; [exact Hrun|]. split; [exact Hsilent|]. apply Hback. reflexivity.
Defined.

(** ** Lists of tasks due *)





Lemma isOverdue_true t w :
  TaskModel.isOverdue t w = (Normal true, w) <->
  (exists due, dueDate t = Some due /\ due < clock w)
  /\ status t <> completed /\ status t <> cancelled.
Proof.
  unfold TaskModel.isOverdue.
  destruct (dueDate t) as [due|].
  - destruct (status t); simpl (bool_decide _ || bool_decide _); cbv iota.
    + unfold bind, new_Date, ret. split.
      * intros [= H]. apply Z.ltb_lt in H. split; [by exists due|done].
      * intros ((x & E & Hx) & _). assert (x = due) as -> by congruence.
        apply Z.ltb_lt in Hx. by rewrite Hx.
    + unfold bind, new_Date, ret. split.
      * intros [= H]. apply Z.ltb_lt in H. split; [by exists due|done].
      * intros ((x & E & Hx) & _). assert (x = due) as -> by congruence.
        apply Z.ltb_lt in Hx. by rewrite Hx.
    + unfold ret. split; [discriminate|]. intros (_ & H & _). done.
    + unfold ret. split; [discriminate|]. intros (_ & _ & H). done.
  - unfold ret. split; [discriminate|]. intros ((x & H & _) & _). discriminate.
Qed.

(** X18.  With the store up, the static [getOverdueTasks] returns, each
    once, exactly the stored tasks of the user that are not archived and
    whose virtual [isOverdue], read at the same instant, is true: the query
    and the virtual agree on what overdue means, and the query leaves out
    the archived tasks, on which the virtual can still be true. *)
Theorem getOverdueTasks_agrees_with_isOverdue (uid : UserId) (w : World) :
  faults w = [] ->
  exists l,
    TaskModel.getOverdueTasks uid w = (Normal l, w)
    /\ NoDup (map _id l)
    /\ forall d, In d l <->
         stored_as w d
         /\ userId (fields d) = uid
         /\ isArchived (fields d) = false
         /\ TaskModel.isOverdue (fields d) w = (Normal true, w).
Proof.
  intros Hf. eexists. split; [|split].
  - unfold TaskModel.getOverdueTasks, Task_find, bind, new_Date.
    rewrite store_op_nil by exact Hf. reflexivity.
  - apply matching_NoDup.
  - intros d. rewrite matching_In, isOverdue_true. unfold stored_as.
    rewrite !andb_true_iff, bool_decide_eq_true, Bool.eqb_true_iff.
    unfold lt_date, status_in. cbn. rewrite !orb_true_iff, !bool_decide_eq_true.
    destruct (dueDate (fields d)) as [due|].
    + rewrite Z.ltb_lt. split.
      * intros (Hst & ((Hu & Hd) & Hs) & Ha). repeat split; try assumption.
        -- by exists due.
        -- destruct Hs as [Hs|[Hs|Hs]]; congruence.
        -- destruct Hs as [Hs|[Hs|Hs]]; congruence.
      * intros (Hst & Hu & Ha & (x & [= <-] & Hx) & Hc & Hn).
        repeat split; try assumption.
        destruct (status (fields d)); auto; contradiction.
    + split.
      * intros (_ & ((_ & H) & _) & _). discriminate.
      * intros (_ & _ & _ & (x & H & _) & _). discriminate.
Qed.

Lemma getOverdueTasks_agrees_with_isOverdue_witness :
  exists l,
    TaskModel.getOverdueTasks 1 week = (Normal l, week)
    /\ NoDup (map _id l)
    /\ forall d, In d l <->
         stored_as week d
         /\ userId (fields d) = 1%positive
         /\ isArchived (fields d) = false
         /\ TaskModel.isOverdue (fields d) week = (Normal true, week).
Proof.
  apply (getOverdueTasks_agrees_with_isOverdue 1 week). reflexivity.
Defined.

(** ** The reminder statistics *)

Lemma getReminderStats_counts w :
  faults w = [] ->
  ReminderService.getReminderStats w
  = (Normal
       (ReminderService.mkReminderStats
          (Z.of_nat (length (matching (fun t => holds (enabled (reminder t)) true) w)))
          (Z.of_nat (length (matching (fun t => holds (enabled (reminder t)) true
                                                && holds (notified (reminder t)) false) w)))
          (Z.of_nat (length (matching (fun t => holds (enabled (reminder t)) true
                                                && holds (notified (reminder t)) true) w)))
          (Z.of_nat (length (matching
                               (fun t => holds (enabled (reminder t)) true
                                         && lt_date (reminderDate (reminder t)) (clock w)
                                         && holds (notified (reminder t)) false) w)))
          (completionRate
             (Z.of_nat (length (matching (fun t => holds (enabled (reminder t)) true
                                                   && holds (notified (reminder t)) true) w)))
             (Z.of_nat (length (matching (fun t => holds (enabled (reminder t)) true) w))))),
     w).
Proof.
  intros Hf.
  unfold ReminderService.getReminderStats, try_catch, bind, new_Date.
  rewrite !countDocuments_nil by exact Hf. reflexivity.
Qed.

(** X19.  With the store up, the counts of [getReminderStats] fit
    together: the overdue reminders are among the active ones, the active
    and the sent ones are disjoint parts of the total, and with no reminder
    at all the efficiency is 0. *)
Theorem reminder_stats_fit (w : World) :
  faults w = [] ->
  exists s,
    ReminderService.getReminderStats w = (Normal s, w)
    /\ 0 <= ReminderService.overdueReminders s <= ReminderService.activeReminders s
    /\ 0 <= ReminderService.sentReminders s
    /\ ReminderService.activeReminders s + ReminderService.sentReminders s
       <= ReminderService.totalReminders s
    /\ (ReminderService.totalReminders s = 0 -> ReminderService.reminderEfficiency s = 0).
Proof.
  intros Hf. rewrite (getReminderStats_counts w Hf). eexists. split; [reflexivity|].
  cbn [ReminderService.overdueReminders ReminderService.activeReminders
       ReminderService.sentReminders ReminderService.totalReminders
       ReminderService.reminderEfficiency].
  unfold matching. split; [split; [lia|]|split; [lia|split]].
  - apply Nat2Z.inj_le, length_filter_le. intros d H.
    apply andb_true_iff in H as [H1 H2]. apply andb_true_iff in H1 as [H1 _].
    by rewrite H1, H2.
  - rewrite <- Nat2Z.inj_add. apply Nat2Z.inj_le, length_filter_split.
    + intros d H. by apply andb_true_iff in H as [H _].
    + intros d H. by apply andb_true_iff in H as [H _].
    + intros d H1 H2. apply andb_true_iff in H1 as [_ H1].
      apply andb_true_iff in H2 as [_ H2].
      destruct (notified (reminder (fields d))) as [[]|]; discriminate.
  - intros H0. unfold completionRate. by rewrite H0.
Qed.

Lemma reminder_stats_fit_witness :
  exists s,
    ReminderService.getReminderStats week = (Normal s, week)
    /\ 0 <= ReminderService.overdueReminders s <= ReminderService.activeReminders s
    /\ 0 <= ReminderService.sentReminders s
    /\ ReminderService.activeReminders s + ReminderService.sentReminders s
       <= ReminderService.totalReminders s
    /\ (ReminderService.totalReminders s = 0 -> ReminderService.reminderEfficiency s = 0).
Proof.
  apply (reminder_stats_fit week). reflexivity.
Defined.

(** ** Dispatches that do not reach the save *)

Lemma dispatch_effect_other mails saves task w id :
  (_id (doc task) = id -> saves task = false) ->
  tasks (dispatch_effect mails saves task w) !! id = tasks w !! id.
Proof.
  intros H. unfold dispatch_effect. destruct (saves task) eqn:Es; [|reflexivity].
  assert (_id (doc task) <> id) as Hne by (intros E; specialize (H E); congruence).
  destruct (save_notified_cases (doc task) (push_all (mails task) w))
    as (c & w' & E & _ & _ & _ & _ & [Ht|(stored & _ & Ht)] & _);
    rewrite E; cbn [snd]; rewrite Ht.
  - reflexivity.
  - by rewrite lookup_insert_ne.
Qed.

Section Skipped.
Variable h : Populated -> M unit.
Variable mails : Populated -> list Sent.
Variable saves : Populated -> bool.
Hypothesis h_effect :
  forall task w, h task w = (Normal tt, dispatch_effect mails saves task w).

Lemma run_all_other ds w id :
  (forall task, In task ds -> _id (doc task) = id -> saves task = false) ->
  tasks (run_all h ds w) !! id = tasks w !! id.
Proof.
  revert w. induction ds as [|d ds IH]; intros w Hds; [reflexivity|].
  rewrite (run_all_cons h mails saves h_effect), IH.
  - apply dispatch_effect_other. intros E. apply Hds; [by left|exact E].
  - intros task Hin. apply Hds. by right.
Qed.
End Skipped.

Lemma cycle_users ml now w : users (cycle ml now w) = users w.
Proof.
  unfold cycle. rewrite checkAndSendReminders_run. cbn [snd].
  destruct (available (set_clock now w)).
  - destruct (run_all_frame _ _ _ (remind_effect ml) (due (clock (set_clock now w))
       (set_clock now w)) (drop_fault (set_clock now w))) as (Eu & _).
    by rewrite Eu, drop_fault_users.
  - by rewrite drop_fault_users.
Qed.

Lemma job_cycle_users ml now w : users (job_cycle ml now w) = users w.
Proof.
  unfold job_cycle. rewrite checkReminders_run. cbn [snd].
  destruct (available (set_clock now w)).
  - destruct (run_all_frame _ _ _ (job_remind_effect ml) (job_due (clock (set_clock now w))
       (set_clock now w)) (drop_fault (set_clock now w))) as (Eu & _).
    by rewrite Eu, drop_fault_users.
  - by rewrite drop_fault_users.
Qed.

Lemma cycle_keeps ml now w id t :
  tasks w !! id = Some t -> users w !! userId t = None ->
  tasks (cycle ml now w) !! id = Some t.
Proof.
  intros Ht Hu. unfold cycle. rewrite checkAndSendReminders_run. cbn [snd].
  destruct (available (set_clock now w)).
  - rewrite (run_all_other _ _ _ (remind_effect ml)).
    + by rewrite drop_fault_tasks.
    + intros task Hin Hid. destruct (populated_In _ _ _ Hin) as (Hl & _ & Ho).
      cbn in Hl, Ho. rewrite Hid, Ht in Hl. injection Hl as Hl.
      unfold has_owner. by rewrite Ho, <- Hl, Hu.
  - by rewrite drop_fault_tasks.
Qed.

(** The job does not get to the save of a task whose owner is missing or
    has no address, or whose mail the transport rejects. *)
Lemma job_cycle_keeps ml now w id t :
  tasks w !! id = Some t ->
  job_saves ml (populate w (mkDocument id t)) = false ->
  tasks (job_cycle ml now w) !! id = Some t.
Proof.
  intros Ht Hs. unfold job_cycle. rewrite checkReminders_run. cbn [snd].
  destruct (available (set_clock now w)).
  - rewrite (run_all_other _ _ _ (job_remind_effect ml)).
    + by rewrite drop_fault_tasks.
    + intros task Hin Hid. destruct (populated_In _ _ _ Hin) as (Hl & _ & Ho).
      cbn in Hl, Ho. rewrite Hid, Ht in Hl. injection Hl as Hl.
      destruct task as [[i f] o]. cbn in *. subst. exact Hs.
  - by rewrite drop_fault_tasks.
Qed.

(** X20.  A task whose owner is not among the users is never settled: over
    any schedule of cycles of the service or of the job, store up or not,
    no mail about it is sent and the task stays stored exactly as it was,
    so a reminder of it that is due is selected again by every scan. *)
Theorem orphan_task_is_never_settled (sched : list (Mailer * Instant)) (w : World)
    (id : TaskId) (t : Task) :
  tasks w !! id = Some t ->
  users w !! userId t = None ->
  tasks (cycles sched w) !! id = Some t
  /\ tasks (job_cycles sched w) !! id = Some t
  /\ (forall s, In s (outbox (cycles sched w)) -> In s (outbox w) \/ mail_id s <> id).
Proof.
  intros Ht Hu. split; [|split].
  - revert w Ht Hu. induction sched as [|[ml now] rest IH]; intros w Ht Hu; [exact Ht|].
    cbn [cycles]. apply IH; [by apply cycle_keeps|by rewrite cycle_users].
  - revert w Ht Hu. induction sched as [|[ml now] rest IH]; intros w Ht Hu; [exact Ht|].
    cbn [job_cycles]. apply IH; [|by rewrite job_cycle_users].
    apply job_cycle_keeps; [exact Ht|]. unfold job_saves, populate. cbn. by rewrite Hu.
  - intros s Hs. destruct (cycles_new_mail sched w) as (new & Ho & Hnew).
    rewrite Ho in Hs. apply in_app_or in Hs as [Hs|Hs]; [by left|]. right. intros E.
    destruct (Hnew s Hs) as (t' & ml & now & u & _ & Hl & _ & Hu' & _).
    rewrite E, Ht in Hl. injection Hl as <-. rewrite Hu in Hu'. discriminate.
Qed.

Lemma orphan_task_is_never_settled_witness :
  tasks (cycles [(smtp_up, noon); (smtp_up, noon + 60000)] week) !! 35%positive
  = Some (task_of 9 "ghost" (armed 1000))
  /\ tasks (job_cycles [(smtp_up, noon); (smtp_up, noon + 60000)] week) !! 35%positive
     = Some (task_of 9 "ghost" (armed 1000))
  /\ (forall s, In s (outbox (cycles [(smtp_up, noon); (smtp_up, noon + 60000)] week)) ->
        In s (outbox week) \/ mail_id s <> 35%positive).
Proof.
  apply (orphan_task_is_never_settled [(smtp_up, noon); (smtp_up, noon + 60000)] week 35
           (task_of 9 "ghost" (armed 1000))).
  - reflexivity.
  - reflexivity.
Defined.




(** ** The controller when the store is down *)



(** ** The method and the service *)

(** X23.  With the store up, the method [setReminder] of a task document
    just read from the store and [scheduleReminder] of the service on its
    identifier have the same effect: the stored task gets the reminder
    [{enabled: true, reminderDate: date, notified: false}], the instant of
    the save as [lastModified] and its sync version advanced by one, and
    nothing else changes, so a reminder that was already sent is armed
    again. *)
Theorem setReminder_is_scheduleReminder (id : TaskId) (date : Instant) (stored : Task)
    (w : World) :
  faults w = [] -> tasks w !! id = Some stored ->
  let w' := set_tasks (<[id := with_reminder (mkReminder (Some true) (Some date) (Some false))
                                 (clock w) stored]> (tasks w)) w in
  TaskModel.setReminder (mkDocument id stored) date w = (Normal tt, w')
  /\ snd (ReminderService.scheduleReminder id date w) = w'
  /\ unflagged w' id.
Proof.
  intros Hf Ht w'. split; [|split].
  - unfold TaskModel.setReminder.
    rewrite save_schedule_spec by (auto using nil_available).
    by rewrite (drop_fault_nil w Hf).
  - by rewrite (scheduleReminder_ok id date stored w Ht Hf).
  - unfold unflagged, w'. cbn. rewrite lookup_insert_eq. eauto.
Qed.

Lemma setReminder_is_scheduleReminder_witness :
  let w' := set_tasks (<[10%positive := with_reminder
                                          (mkReminder (Some true) (Some 5000) (Some false))
                                          (clock office) (task_of 1 "report" (armed 1000))]>
                         (tasks office)) office in
  TaskModel.setReminder (mkDocument 10 (task_of 1 "report" (armed 1000))) 5000 office
  = (Normal tt, w')
  /\ snd (ReminderService.scheduleReminder 10 5000 office) = w'
  /\ unflagged w' 10.
Proof.
  apply (setReminder_is_scheduleReminder 10 5000 (task_of 1 "report" (armed 1000)) office).
  - reflexivity.
  - reflexivity.
Defined.

(** ** A cycle as a whole *)


